(** * User-defined HPMC pair potentials: hoomd/hpmc/pair/user.py

    A shallow embedding of [CPPPotentialBase], [CPPPotential] and
    [_CPPUnionPotential]: the C++ source wrappers, the constructors, the
    attach protocol, the energy query and the [code_constituent] property.

    Python objects are records, the instance dictionaries and the
    [ParameterDict] are finite maps, numpy arrays live in a shared heap and
    are referred to by location (two names for one array see each other's
    writes), and methods that can raise run in a state-and-exception monad
    whose state survives an exception, as a Python object does. *)

From Stdlib Require Import ZArith List Ascii String Bool Lia.
From stdpp Require Import base option gmap strings list fin_maps.


Local Open Scope Z_scope.

(** ** Text helpers *)

Definition nl : string := String "010"%char EmptyString.
Definition dq : string := String (ascii_of_nat 34) EmptyString.

Fixpoint spaces (n : nat) : string :=
  match n with
  | O => EmptyString
  | S k => String " "%char (spaces k)
  end.

(** One physical line of a triple-quoted Python literal: its indentation,
    its text and the line break. *)
Definition src_line (indent : nat) (text : string) : string :=
  spaces indent +:+ text +:+ nl.

Fixpoint cat (parts : list string) : string :=
  match parts with
  | [] => EmptyString
  | p :: ps => p +:+ cat ps
  end.

(** ** The source wrappers (user.py, lines 112-178) *)

Module Wrapper.

(** The literal that opens [_wrap_cpu_code] (lines 118-139).  It starts
    with the line break after the opening quotes and ends with the
    indentation in front of the closing quotes. *)
Definition cpu_head : string :=
  cat [ nl;
        src_line 24 "#include <stdio.h>";
        src_line 24 ("#include " +:+ dq +:+ "hoomd/HOOMDMath.h" +:+ dq);
        src_line 24 ("#include " +:+ dq +:+ "hoomd/VectorMath.h" +:+ dq);
        nl;
        src_line 24 "// these are allocated by the library";
        src_line 24 "float *param_array;";
        src_line 24 "float *alpha_union;";
        nl;
        src_line 24 ("extern " +:+ dq +:+ "C" +:+ dq);
        src_line 24 "{";
        src_line 24 "float eval(const vec3<float>& r_ij,";
        src_line 28 "unsigned int type_i,";
        src_line 28 "const quat<float>& q_i,";
        src_line 28 "float d_i,";
        src_line 28 "float charge_i,";
        src_line 28 "unsigned int type_j,";
        src_line 28 "const quat<float>& q_j,";
        src_line 28 "float d_j,";
        src_line 28 "float charge_j)";
        src_line 28 "{";
        spaces 24 ].

(** The literal that closes it (lines 141-144). *)
Definition cpu_tail : string :=
  cat [ nl;
        src_line 28 "}";
        src_line 24 "}";
        spaces 24 ].

(** The literal that opens [_wrap_gpu_code] (lines 154-173). *)
Definition gpu_head : string :=
  cat [ nl;
        src_line 24 ("#include " +:+ dq +:+ "hoomd/HOOMDMath.h" +:+ dq);
        src_line 24 ("#include " +:+ dq +:+ "hoomd/VectorMath.h" +:+ dq);
        src_line 24 ("#include " +:+ dq
                       +:+ "hoomd/hpmc/IntegratorHPMCMonoGPUJIT.inc" +:+ dq);
        nl;
        src_line 24 "// these are allocated by the library";
        src_line 24 "__device__ float *param_array;";
        src_line 24 "__device__ float *alpha_union;";
        nl;
        src_line 24 "__device__ inline float eval(const vec3<float>& r_ij,";
        src_line 28 "unsigned int type_i,";
        src_line 28 "const quat<float>& q_i,";
        src_line 28 "float d_i,";
        src_line 28 "float charge_i,";
        src_line 28 "unsigned int type_j,";
        src_line 28 "const quat<float>& q_j,";
        src_line 28 "float d_j,";
        src_line 28 "float charge_j)";
        src_line 28 "{";
        spaces 24 ].

(** The literal that closes it (lines 175-177). *)
Definition gpu_tail : string :=
  cat [ nl;
        src_line 28 "}";
        spaces 24 ].

Section Methods.
(** Both wrappers are methods: they receive the object and the body. *)
Context {Self : Type}.

Definition _wrap_cpu_code (self : Self) (code : string) : string :=
  let cpp_function := cpu_head in
  let cpp_function := cpp_function +:+ code in
  let cpp_function := cpp_function +:+ cpu_tail in
  cpp_function.

Definition _wrap_gpu_code (self : Self) (code : string) : string :=
  let cpp_function := gpu_head in
  let cpp_function := cpp_function +:+ code in
  let cpp_function := cpp_function +:+ gpu_tail in
  cpp_function.
End Methods.

(** *** Reading a generated unit back *)













End Wrapper.

(** ** Python values, exceptions and the shared store *)

(** A numpy [float32] element, as its IEEE-754 binary32 bit pattern. *)
Definition float32 : Type := Z.

(** A Python [float], as its binary64 bit pattern.  Cutoffs and energies
    are only stored and handed on. *)
Definition pyfloat : Type := Z.

Definition f32_exponent (w : float32) : Z := Z.land (Z.shiftr w 23) 255.

(** [numpy.isfinite]: neither an infinity nor a NaN. *)
Definition isfinite (w : float32) : bool := negb (f32_exponent w =? 255).

(** The bit pattern of [0.0f]. *)
Definition f32_zero : float32 := 0.

(** A location of the store of numpy arrays. *)
Definition loc : Type := nat.

Inductive pyval : Type :=
| PyNone
| PyFloat (x : pyfloat)
| PyInt (n : Z)
| PyStr (s : string)
| PyArray (a : list float32)     (* an array held by value *)
| PyRef (l : loc).               (* an array shared through the store *)

Inductive exn : Type :=
| RuntimeError (msg : string)
| AttributeError (msg : string)
| TypeError (msg : string)
| KeyError (key : string)
| ValueError (msg : string)
| IndexError (msg : string)
| CompilationFailed (diagnostic : string)
| InvalidParameterError (field : string)
| AttachedImmutableError (field : string).

(** ** The simulation an object is added to *)

Inductive device_kind : Type := CPU | GPU.

(** [self._simulation.operations.integrator]: nothing, an integrator of
    another family, or an [integrate.HPMCIntegrator]; the flag is the
    integrator's [_attached]. *)
Inductive integrator_obj : Type :=
| NoIntegrator
| OtherIntegrator (attached : bool)
| HPMCIntegrator (attached : bool).

Record simulation : Type := Simulation {
  sim_integrator : integrator_obj;
  sim_device : device_kind;
  sim_timestep : Z
}.

(** [isinstance(integrator, integrate.HPMCIntegrator)] *)
Definition isinstance_hpmc (i : integrator_obj) : bool :=
  match i with HPMCIntegrator _ => true | _ => false end.

(** [integrator._attached], read only once the instance test passed *)
Definition integrator_attached (i : integrator_obj) : bool :=
  match i with
  | HPMCIntegrator a => a
  | OtherIntegrator a => a
  | NoIntegrator => false
  end.

(** ** The compiled side: [_compile] and [_jit] *)

Record gpu_settings : Type := GpuSettings {
  gpu_includes : list string;
  cuda_devrt_lib_path : string;
  max_arch : Z
}.

(** The arguments of the four evaluator constructors, in the order the
    calls at lines 230-251 and 440-465 pass them.  The system definition
    and the execution configuration are opaque handles and are left out. *)
Inductive jit_request : Type :=
| PatchEnergyJIT
    (cpu_code : string) (cpu_include_options : list string)
    (r_cut : pyval) (param_array : pyval)
| PatchEnergyJITGPU
    (cpu_code : string) (cpu_include_options : list string)
    (r_cut : pyval) (param_array : pyval)
    (gpu_code : string) (kernel_name : string) (includes : list string)
    (devrt : string) (arch : Z)
| PatchEnergyJITUnion
    (cpu_code_isotropic : string) (cpu_include_options : list string)
    (r_cut_isotropic : pyval) (param_array : pyval)
    (cpu_code_constituent : string) (r_cut_constituent : pyval)
| PatchEnergyJITUnionGPU
    (cpu_code_isotropic : string)
    (r_cut_isotropic : pyval) (param_array : pyval)
    (cpu_code_constituent : string) (r_cut_constituent : pyval)
    (array_size_union : pyval)
    (gpu_code_isotropic : string) (kernel_name : string)
    (includes : list string) (devrt : string) (arch : Z).

Definition is_union_request (r : jit_request) : bool :=
  match r with
  | PatchEnergyJITUnion _ _ _ _ _ _ => true
  | PatchEnergyJITUnionGPU _ _ _ _ _ _ _ _ _ _ _ => true
  | _ => false
  end.

(** A compiled evaluator.  The union evaluators expose their two
    parameter buffers, [alpha_iso] and [alpha_union], as arrays of the
    store. *)
Inductive cpp_obj : Type :=
| PatchEnergy (built_from : jit_request)
| PatchEnergyUnion (built_from : jit_request) (alpha_iso alpha_union : loc).

(** What the model assumes of the code outside user.py that [_attach] and
    [energy] call: the include options and GPU settings of [_compile], the
    verdict of the run-time compiler on a request ([Some] diagnostic when
    it rejects the source), the initial contents of the two buffers a
    union evaluator allocates, and the integrator's
    [computePatchEnergy]. *)
Record backend : Type := Backend {
  get_cpu_include_options : list string;
  get_gpu_compilation_settings : gpu_settings;
  jit_compile : jit_request -> option string;
  engine_buffers : jit_request -> list float32 * list float32;
  computePatchEnergy : Z -> pyfloat
}.

(** ** Objects *)

(** Modelled from the spec: [hoomd.data.parameterdicts.ParameterDict] and
    [hoomd.data.typeconverter.NDArrayValidator] are not in the sources.
    The spec describes the persisted state as a flat key/value record
    (section 6) and has a parameter setter reject a non-finite value or a
    length mismatch with [InvalidParameterError] (section 7).  A
    [ParameterDict] is the finite map of its values together with the
    array validators registered per key, each recorded by the length its
    [shape] argument fixes. *)
Record ParameterDict : Type := MkParameterDict {
  pd_values : gmap string pyval;
  pd_validators : gmap string nat
}.

Definition pd_empty : ParameterDict := MkParameterDict ∅ ∅.

(** Modelled from the spec: [NDArrayValidator(dtype=np.float32,
    shape=(n,))], which the constructor builds at lines 83-84 with [n] the
    length of the initial array, applied to a value.  By section 7 a
    length mismatch and a non-finite value are both rejected with
    [InvalidParameterError]; section 4.2 says the same of the constructor
    for a non-finite initial parameter. *)
Definition nd_validate (key : string) (n : nat) (v : pyval) : exn + pyval :=
  match v with
  | PyArray a =>
      if negb (length a =? n)%nat then inl (InvalidParameterError key)
      else if forallb isfinite a then inr (PyArray a)
      else inl (InvalidParameterError key)
  | _ => inl (InvalidParameterError key)
  end.

(** [param_dict[key] = NDArrayValidator(...)]: registers the validator. *)
Definition pd_register (key : string) (n : nat) (pd : ParameterDict)
  : ParameterDict :=
  MkParameterDict (pd_values pd) (<[key := n]> (pd_validators pd)).

(** [param_dict[key] = value] *)
Definition pd_setitem (key : string) (v : pyval) (pd : ParameterDict)
  : exn + ParameterDict :=
  match pd_validators pd !! key with
  | Some n =>
      match nd_validate key n v with
      | inl e => inl e
      | inr v' => inr (MkParameterDict (<[key := v']> (pd_values pd))
                                       (pd_validators pd))
      end
  | None => inr (MkParameterDict (<[key := v]> (pd_values pd))
                                 (pd_validators pd))
  end.

(** [d.update(other)]: the entries of [other] win. *)
Definition pd_update (other d : ParameterDict) : ParameterDict :=
  MkParameterDict (pd_values other ∪ pd_values d)
                  (pd_validators other ∪ pd_validators d).

(** The element type a [TypeParameterDict] is declared with. *)
Inductive tp_elem : Type := TpTuple | TpFloat | TpInt.

(** A potential object: the [ParameterDict] and the per-type parameters of
    the base class, the instance dictionary (attributes that "only exist on
    python": [_code_constituent], [_code_isotropic], [alpha_iso], ...) and
    the compiled evaluator. *)
Record potential : Type := Potential {
  _param_dict : ParameterDict;
  _typeparam_dict : gmap string tp_elem;
  inst_dict : gmap string pyval;
  _cpp_obj : option cpp_obj
}.

Definition new_object : potential := Potential pd_empty ∅ ∅ None.

(** Modelled from the spec: the property [_attached] of
    [hoomd.operation._HOOMDBaseObject] is not in the sources; by section 3
    the compiled evaluator is present exactly while the object is
    attached. *)
Definition _attached (p : potential) : bool :=
  match _cpp_obj p with Some _ => true | None => false end.

(** What a call did outside the object, in program order. *)
Inductive event : Type :=
| EvWrap (target : device_kind) (code : pyval)
| EvCompile (req : jit_request)
| EvInstall (obj : cpp_obj).

Record world : Type := World {
  self : potential;
  heap : list (list float32);
  calls : list event;
  integrator_patch : option cpp_obj
}.

(** ** Methods as computations

    A method reads and writes the [world] and either returns or raises;
    what it wrote before raising stays written. *)

Definition M (A : Type) : Type := world -> (exn + A) * world.

Definition ret {A : Type} (a : A) : M A := fun w => (inr a, w).

Definition raise {A : Type} (e : exn) : M A := fun w => (inl e, w).

Definition bind {A B : Type} (m : M A) (k : A -> M B) : M B :=
  fun w =>
    match m w with
    | (inl e, w') => (inl e, w')
    | (inr a, w') => k a w'
    end.

Declare Scope py_scope.
Delimit Scope py_scope with py.
Notation "x <- c1 ;; c2" := (bind c1 (fun x => c2))
  (at level 100, c1 at next level, right associativity) : py_scope.
Notation "c1 ;; c2" := (bind c1 (fun _ => c2))
  (at level 100, right associativity) : py_scope.
Local Open Scope py_scope.

Definition lift {A : Type} (r : exn + A) : M A :=
  match r with
  | inl e => raise e
  | inr a => ret a
  end.

Definition get_self : M potential := fun w => (inr (self w), w).

Definition put_self (p : potential) : M unit :=
  fun w => (inr tt, World p (heap w) (calls w) (integrator_patch w)).

Definition emit (e : event) : M unit :=
  fun w => (inr tt, World (self w) (heap w) (calls w ++ [e]) (integrator_patch w)).

Definition set_param_dict (pd : ParameterDict) (p : potential) : potential :=
  Potential pd (_typeparam_dict p) (inst_dict p) (_cpp_obj p).

Definition set_typeparam_dict (t : gmap string tp_elem) (p : potential)
  : potential :=
  Potential (_param_dict p) t (inst_dict p) (_cpp_obj p).

Definition set_inst_dict (d : gmap string pyval) (p : potential) : potential :=
  Potential (_param_dict p) (_typeparam_dict p) d (_cpp_obj p).

Definition set_cpp_obj (o : option cpp_obj) (p : potential) : potential :=
  Potential (_param_dict p) (_typeparam_dict p) (inst_dict p) o.

(** *** Arrays of the store *)

(** A new array; its location is the next free one. *)
Definition alloc (a : list float32) : M loc :=
  fun w => (inr (length (heap w)),
            World (self w) (heap w ++ [a]) (calls w) (integrator_patch w)).

Definition load (l : loc) : M (list float32) :=
  fun w =>
    match heap w !! l with
    | Some a => (inr a, w)
    | None => (inl (ValueError "no such array"), w)
    end.

Definition store (l : loc) (a : list float32) : M unit :=
  fun w => (inr tt,
            World (self w) (<[l := a]> (heap w)) (calls w) (integrator_patch w)).

(** numpy's rule for assigning a one-dimensional array to a slice of
    length [n]: equal lengths, or one element repeated. *)
Definition broadcast (src : list float32) (n : nat) : option (list float32) :=
  if (length src =? n)%nat then Some src
  else match src with
       | [x] => Some (repeat x n)
       | _ => None
       end.

(** [dst[:] = src[:]] *)
Definition slice_assign (dst src : loc) : M unit :=
  s <- load src ;;
  d <- load dst ;;
  match broadcast s (length d) with
  | Some v => store dst v
  | None => raise (ValueError "could not broadcast input array")
  end.

(** A Python index into a sequence of length [n]: negative indices count
    from the end. *)
Definition norm_index (n : nat) (i : Z) : option nat :=
  if (0 <=? i) && (i <? Z.of_nat n) then Some (Z.to_nat i)
  else if (- Z.of_nat n <=? i) && (i <? 0) then Some (Z.to_nat (i + Z.of_nat n))
  else None.

(** *** Attribute access *)

Definition py_code (code : option string) : pyval :=
  match code with
  | Some s => PyStr s
  | None => PyNone
  end.

(** [self._param_dict[key]] *)
Definition param_dict_getitem (key : string) : M pyval :=
  p <- get_self ;;
  match pd_values (_param_dict p) !! key with
  | Some v => ret v
  | None => raise (KeyError key)
  end.

(** [CPPPotentialBase._getattr_param] (lines 94-97).  The base class's
    method it falls back to is not in the sources; it is taken to read the
    [ParameterDict] as well. *)
Definition _getattr_param (attr : string) : M pyval :=
  if String.eqb attr "code" then param_dict_getitem "code"
  else param_dict_getitem attr.

(** [self.name]: an instance attribute if there is one, else a parameter
    of the [ParameterDict], else [AttributeError]. *)
Definition getattr (name : string) : M pyval :=
  p <- get_self ;;
  match inst_dict p !! name with
  | Some v => ret v
  | None =>
      match pd_values (_param_dict p) !! name with
      | Some _ => _getattr_param name
      | None => raise (AttributeError name)
      end
  end.

(** [self.name = v] for a name that is not a parameter. *)
Definition setattr_inst (name : string) (v : pyval) : M unit :=
  p <- get_self ;;
  put_self (set_inst_dict (<[name := v]> (inst_dict p)) p).

(** The length of the array stored under a parameter; a missing entry
    or a value that is not an array counts as empty. *)
Definition stored_length (name : string) (p : potential) : nat :=
  match pd_values (_param_dict p) !! name with
  | Some (PyArray a) => length a
  | _ => 0%nat
  end.

(** Modelled from the spec: [_HOOMDBaseObject.__setattr__] is not in the
    sources.  By sections 3 and 8 the length of a parameter array is free
    until the object is attached and cannot change afterwards, while its
    elements stay mutable (the docstring of the class says the same at
    lines 74-77); by section 7 a change of length on an attached object
    is an [AttachedImmutableError] and a non-finite value an
    [InvalidParameterError], raised before anything is stored.  The
    length the constructor built its validator with (lines 83-85) is thus
    not binding on a later array: an accepted array goes through the
    [ParameterDict] with the validator registered anew for its length.
    What the compiled side does with an accepted value is not modelled. *)
Definition setattr_param (name : string) (v : pyval) : M unit :=
  p <- get_self ;;
  match v with
  | PyArray a =>
      if _attached p && negb (length a =? stored_length name p)%nat then
        raise (AttachedImmutableError name)
      else
        pd <- lift (pd_setitem name v
                      (pd_register name (length a) (_param_dict p))) ;;
        put_self (set_param_dict pd p)
  | _ =>
      pd <- lift (pd_setitem name v (_param_dict p)) ;;
      put_self (set_param_dict pd p)
  end.

(** [self.name[:]] read as an array of the store. *)
Definition as_array (v : pyval) : M loc :=
  match v with
  | PyRef l => ret l
  | _ => raise (TypeError "object is not subscriptable")
  end.

(** [self.name[i]] *)
Definition array_getitem (name : string) (i : Z) : M float32 :=
  v <- getattr name ;;
  l <- as_array v ;;
  a <- load l ;;
  match norm_index (length a) i with
  | Some k =>
      match a !! k with
      | Some x => ret x
      | None => raise (IndexError "index out of bounds")
      end
  | None => raise (IndexError "index out of bounds")
  end.

(** [self.name[i] = x] *)
Definition array_setitem (name : string) (i : Z) (x : float32) : M unit :=
  v <- getattr name ;;
  l <- as_array v ;;
  a <- load l ;;
  match norm_index (length a) i with
  | Some k => store l (<[k := x]> a)
  | None => raise (IndexError "index out of bounds")
  end.

(** *** Calls that leave the object *)

(** A call of [_wrap_cpu_code] or [_wrap_gpu_code]; [cpp_function += code]
    raises when [code] is not a [str]. *)
Definition call_wrap (target : device_kind) (code : pyval) : M string :=
  emit (EvWrap target code) ;;
  match code with
  | PyStr s =>
      p <- get_self ;;
      ret (match target with
           | CPU => Wrapper._wrap_cpu_code p s
           | GPU => Wrapper._wrap_gpu_code p s
           end)
  | _ => raise (TypeError "can only concatenate str to str")
  end.

(** A call of one of the [_jit] constructors: the compiler accepts the
    request or the call raises; a union evaluator then allocates its two
    buffers. *)
Definition jit_new (B : backend) (req : jit_request) : M cpp_obj :=
  emit (EvCompile req) ;;
  match jit_compile B req with
  | Some diagnostic => raise (CompilationFailed diagnostic)
  | None =>
      if is_union_request req then
        la <- alloc (fst (engine_buffers B req)) ;;
        lu <- alloc (snd (engine_buffers B req)) ;;
        ret (PatchEnergyUnion req la lu)
      else ret (PatchEnergy req)
  end.

(** Modelled from the spec: [_HOOMDBaseObject._attach] is not in the
    sources; by section 4.2, step 4, it installs the evaluator into the
    move engine. *)
Definition super_attach : M unit :=
  p <- get_self ;;
  match _cpp_obj p with
  | Some o =>
      emit (EvInstall o) ;;
      (fun w => (inr tt, World (self w) (heap w) (calls w) (Some o)))
  | None => ret tt
  end.

(** [self._cpp_obj.alpha_iso] and [self._cpp_obj.alpha_union] *)
Definition cpp_alpha_iso : M loc :=
  p <- get_self ;;
  match _cpp_obj p with
  | Some (PatchEnergyUnion _ l _) => ret l
  | _ => raise (AttributeError "alpha_iso")
  end.

Definition cpp_alpha_union : M loc :=
  p <- get_self ;;
  match _cpp_obj p with
  | Some (PatchEnergyUnion _ _ l) => ret l
  | _ => raise (AttributeError "alpha_union")
  end.

Definition kernel_name : string := "hpmc::gpu::kernel::hpmc_narrow_phase_patch".

(** ** class CPPPotentialBase (lines 20-178) *)

Module CPPPotentialBase.

(** [__init__] (lines 80-92).  [param_dict] is a local dictionary; only
    the last statement writes to the object. *)
Definition __init__ (r_cut : pyfloat) (code : option string)
    (param_array : option (list float32)) : M unit :=
  let param_dict := pd_empty in
  let param_dict :=
    match param_array with
    | Some a => pd_register "param_array" (length a) param_dict
    | None => param_dict
    end in
  param_dict <- lift (pd_setitem "r_cut" (PyFloat r_cut) param_dict) ;;
  param_dict <- lift (pd_setitem "code" (py_code code) param_dict) ;;
  param_dict <-
    lift (match param_array with
          | None => pd_setitem "param_array" (PyArray []) param_dict
          | Some a => pd_setitem "param_array" (PyArray a) param_dict
          end) ;;
  p <- get_self ;;
  put_self (set_param_dict (pd_update param_dict (_param_dict p)) p).

(** [energy] (lines 99-110).  The integrator and the time step are read
    first, from the simulation the object was added to.  The decorator
    [log] of [hoomd.logging] is not in the sources; it registers the
    property for logging and is taken to hand the value on unchanged. *)
Definition energy (B : backend) (sim : simulation) : M pyval :=
  let integrator := sim_integrator sim in
  let timestep := sim_timestep sim in
  p <- get_self ;;
  if negb (_attached p) then ret PyNone
  else
    match integrator with
    | HPMCIntegrator true => ret (PyFloat (computePatchEnergy B timestep))
    | _ => raise (AttributeError "computePatchEnergy")
    end.

End CPPPotentialBase.

(** ** class CPPPotential (lines 181-253) *)

Module CPPPotential.

Definition __init__ (r_cut : pyfloat) (code : option string)
    (param_array : option (list float32)) : M unit :=
  CPPPotentialBase.__init__ r_cut code param_array.

(** [_attach] (lines 212-253) *)
Definition _attach (B : backend) (sim : simulation) : M unit :=
  let integrator := sim_integrator sim in
  if negb (isinstance_hpmc integrator) then
    raise (RuntimeError "The integrator must be a HPMC integrator.")
  else if negb (integrator_attached integrator) then
    raise (RuntimeError "Integrator is not attached yet.")
  else
    let device := sim_device sim in
    code <- getattr "code" ;;
    cpu_code <- call_wrap CPU code ;;
    let cpu_include_options := get_cpu_include_options B in
    obj <-
      match device with
      | GPU =>
          let gpu_settings := get_gpu_compilation_settings B in
          code <- getattr "code" ;;
          gpu_code <- call_wrap GPU code ;;
          r_cut <- getattr "r_cut" ;;
          param_array <- getattr "param_array" ;;
          jit_new B (PatchEnergyJITGPU
                       cpu_code cpu_include_options r_cut param_array
                       gpu_code kernel_name
                       (gpu_includes gpu_settings)
                       (cuda_devrt_lib_path gpu_settings)
                       (max_arch gpu_settings))
      | CPU =>
          r_cut <- getattr "r_cut" ;;
          param_array <- getattr "param_array" ;;
          jit_new B (PatchEnergyJIT
                       cpu_code cpu_include_options r_cut param_array)
      end ;;
    p <- get_self ;;
    put_self (set_cpp_obj (Some obj) p) ;;
    super_attach.

End CPPPotential.

(** ** class _CPPUnionPotential (lines 256-494) *)

Module _CPPUnionPotential.

(** [self._extend_typeparam([...])] registers the per-type parameters. *)
Definition _extend_typeparam (tps : list (string * tp_elem)) : M unit :=
  p <- get_self ;;
  put_self (set_typeparam_dict
              (list_to_map tps ∪ _typeparam_dict p) p).

(** [__init__] (lines 362-421) *)
Definition __init__ (r_cut_constituent r_cut_isotropic : pyfloat)
    (code_constituent code_isotropic : option string)
    (param_array : option (list float32)) : M unit :=
  CPPPotentialBase.__init__ r_cut_isotropic code_isotropic param_array ;;
  let param_dict :=
    MkParameterDict
      (<["r_cut_constituent" := PyFloat r_cut_constituent]>
         (<["r_cut_isotropic" := PyFloat r_cut_isotropic]>
            (<["leaf_capacity" := PyInt 4]> ∅)))
      ∅ in
  p <- get_self ;;
  put_self (set_param_dict (pd_update param_dict (_param_dict p)) p) ;;
  _extend_typeparam
    [ ("positions", TpTuple); ("orientations", TpTuple);
      ("diameters", TpFloat); ("charges", TpFloat); ("typeids", TpInt) ] ;;
  setattr_inst "_code_constituent" (py_code code_constituent) ;;
  setattr_inst "_code_isotropic" (py_code code_isotropic) ;;
  setattr_param "param_array"
    (match param_array with
     | Some a => PyArray a
     | None => PyNone
     end).

(** [_attach] (lines 423-475) *)
Definition _attach (B : backend) (sim : simulation) : M unit :=
  let integrator := sim_integrator sim in
  if negb (isinstance_hpmc integrator) then
    raise (RuntimeError "The integrator must be an HPMC integrator.")
  else if negb (integrator_attached integrator) then
    raise (RuntimeError "Integrator is not attached yet.")
  else
    code <- getattr "_code_constituent" ;;
    cpu_code_constituent <- call_wrap CPU code ;;
    code <- getattr "_code_isotropic" ;;
    cpu_code_isotropic <- call_wrap CPU code ;;
    let cpu_include_options := get_cpu_include_options B in
    let device := sim_device sim in
    obj <-
      match device with
      | GPU =>
          let gpu_settings := get_gpu_compilation_settings B in
          code <- getattr "_code_isotropic" ;;
          gpu_code_isotropic <- call_wrap GPU code ;;
          r_cut_isotropic <- getattr "r_cut_isotropic" ;;
          param_array <- getattr "param_array" ;;
          r_cut_constituent <- getattr "r_cut_constituent" ;;
          array_size_union <- getattr "array_size_union" ;;
          jit_new B (PatchEnergyJITUnionGPU
                       cpu_code_isotropic r_cut_isotropic param_array
                       cpu_code_constituent r_cut_constituent
                       array_size_union
                       gpu_code_isotropic kernel_name
                       (gpu_includes gpu_settings ++ ["-DUNION_EVAL"])
                       (cuda_devrt_lib_path gpu_settings)
                       (max_arch gpu_settings))
      | CPU =>
          r_cut_isotropic <- getattr "r_cut_isotropic" ;;
          param_array <- getattr "param_array" ;;
          r_cut_constituent <- getattr "r_cut_constituent" ;;
          jit_new B (PatchEnergyJITUnion
                       cpu_code_isotropic cpu_include_options
                       r_cut_isotropic param_array
                       cpu_code_constituent r_cut_constituent)
      end ;;
    p <- get_self ;;
    put_self (set_cpp_obj (Some obj) p) ;;
    (* lines 469-472 *)
    host <- getattr "alpha_iso" ;;
    src <- as_array host ;;
    dst <- cpp_alpha_iso ;;
    slice_assign dst src ;;
    host <- getattr "alpha_union" ;;
    src <- as_array host ;;
    dst <- cpp_alpha_union ;;
    slice_assign dst src ;;
    buf <- cpp_alpha_iso ;;
    setattr_inst "alpha_iso" (PyRef buf) ;;
    buf <- cpp_alpha_union ;;
    setattr_inst "alpha_union" (PyRef buf) ;;
    super_attach.

(** The property [code_constituent] (lines 477-485) *)
Definition code_constituent : M pyval :=
  p <- get_self ;;
  match inst_dict p !! "_code_constituent" with
  | Some v => ret v
  | None => raise (AttributeError "_code_constituent")
  end.

(** and its setter (lines 487-494) *)
Definition set_code_constituent (code : pyval) : M unit :=
  p <- get_self ;;
  if _attached p then
    let msg := "The attribute 'code_constituen' can only be set when the " in
    let msg := msg +:+ "object is not attached." in
    raise (AttributeError msg)
  else
    put_self (set_inst_dict (<["_code_constituent" := code]> (inst_dict p)) p).

End _CPPUnionPotential.

(** ** The parameter array *)

Module ParameterArray.

(** The stored parameter array; a missing entry counts as empty. *)
Definition values (p : potential) : list float32 :=
  match pd_values (_param_dict p) !! "param_array" with
  | Some (PyArray a) => a
  | _ => []
  end.

(** An array cut or filled with zeros to [n] elements. *)
Definition resize_values (a : list float32) (n : nat) : list float32 :=
  take n a ++ repeat f32_zero (n - length a).

(** Modelled from the spec: the sources have no resize operation of their
    own, and what the attribute setter does is not in them.  Section 6
    lists the parameter accessor with "resize only pre-attach"; by
    sections 3 and 8 the array is freely resizable before attachment and
    a resize after attachment fails with [AttachedImmutableError] whatever
    the requested length.  The spec does not say what a longer array
    holds in its new elements; they are taken to be zero, and the
    elements kept are the old ones. *)
Definition resize (n : nat) : M unit :=
  p <- get_self ;;
  if _attached p then raise (AttachedImmutableError "param_array")
  else
    let pd := _param_dict p in
    put_self
      (set_param_dict
         (MkParameterDict
            (<["param_array" := PyArray (resize_values (values p) n)]>
               (pd_values pd))
            (<["param_array" := n]> (pd_validators pd)))
         p).

(** [patch.param_array = a] *)
Definition assign (a : list float32) : M unit :=
  setattr_param "param_array" (PyArray a).

End ParameterArray.

(** ** Well-formed stores and a worked scenario *)

(** An array reference held by the object points into the store. *)
Definition ref_ok (n : nat) (v : pyval) : bool :=
  match v with
  | PyRef l => (l <? n)%nat
  | _ => true
  end.

Definition refs_in (n : nat) (m : gmap string pyval) : bool :=
  forallb (fun kv => ref_ok n (snd kv)) (map_to_list m).

Definition store_wf (w : world) : Prop :=
  refs_in (length (heap w)) (inst_dict (self w)) = true /\
  refs_in (length (heap w)) (pd_values (_param_dict (self w))) = true.

(** [patch.name = numpy.array(a)] for a name that is not a parameter: a
    new array of the store, referred to by the attribute. *)
Definition assign_array (name : string) (a : list float32) : M unit :=
  l <- alloc a ;;
  setattr_inst name (PyRef l).

Module Scenario.

Definition B0 : backend :=
  Backend ["-I/usr/include/hoomd"]
          (GpuSettings ["-I/usr/local/cuda/include"] "/usr/local/cuda/lib64" 80)
          (fun _ => None)
          (fun _ => ([0; 0], [0]))
          (fun timestep => timestep).

Definition w0 : world := World new_object [] [] None.

Definition sim_cpu : simulation := Simulation (HPMCIntegrator true) CPU 7.
Definition sim_gpu : simulation := Simulation (HPMCIntegrator true) GPU 7.
Definition sim_md : simulation := Simulation (OtherIntegrator true) CPU 7.
Definition sim_unready : simulation := Simulation (HPMCIntegrator false) CPU 7.

(** A union potential with two distinct bodies and its two host arrays
    set, ready to be attached. *)
Definition make_union : M unit :=
  _CPPUnionPotential.__init__ 11 50 (Some "return 1.0f;") (Some "return 0.0f;")
    (Some [1; 2]) ;;
  assign_array "alpha_iso" [5; 6] ;;
  assign_array "alpha_union" [9] ;;
  setattr_inst "array_size_union" (PyInt 1).

Definition w_union : world := snd (make_union w0).

(** The same object right after its constructor returned. *)
Definition w_constructed : world :=
  snd (_CPPUnionPotential.__init__ 11 50 (Some "return 1.0f;")
         (Some "return 0.0f;") (Some [1; 2]) w0).

Definition w_union_cpu : world :=
  snd (_CPPUnionPotential._attach B0 sim_cpu w_union).

Definition w_union_gpu : world :=
  snd (_CPPUnionPotential._attach B0 sim_gpu w_union).

(** A scalar potential, before and after it is attached. *)
Definition w_scalar : world :=
  snd (CPPPotential.__init__ 11 (Some "return 0.0f;") (Some [1; 2]) w0).

Definition w_scalar_cpu : world :=
  snd (CPPPotential._attach B0 sim_cpu w_scalar).

End Scenario.

(** ** Reading the record of calls *)

Definition is_wrap (e : event) : bool :=
  match e with
  | EvWrap _ _ => true
  | _ => false
  end.

(** The wrapper calls among some events, in order. *)
Definition wraps (evs : list event) : list event := List.filter is_wrap evs.

(** The compilation requests among some events, in order. *)
Definition compiles (evs : list event) : list jit_request :=
  List.flat_map (fun e => match e with EvCompile r => [r] | _ => [] end) evs.

(** A computation that calls no wrapper and whose compilation requests all
    satisfy [R]. *)
Definition quiet (R : jit_request -> Prop) {A : Type} (m : M A) : Prop :=
  forall w, exists evs,
    calls (snd (m w)) = calls w ++ evs /\
    wraps evs = [] /\ Forall R (compiles evs).

(** A computation that leaves the record of calls alone. *)
Definition silent {A : Type} (m : M A) : Prop :=
  forall w, calls (snd (m w)) = calls w.

(** The request the union [_attach] hands to the compiler for the bodies
    [cc] (constituent) and [ci] (isotropic) on a device: both bodies
    wrapped for the CPU and, on a GPU, the isotropic body wrapped for the
    GPU and [-DUNION_EVAL] appended to the GPU include options. *)
Definition union_request_for (B : backend) (p : potential)
    (device : device_kind) (cc ci : string) (req : jit_request) : Prop :=
  match device with
  | GPU =>
      exists r_cut_isotropic param_array r_cut_constituent array_size_union,
        req = PatchEnergyJITUnionGPU
                (Wrapper._wrap_cpu_code p ci) r_cut_isotropic param_array
                (Wrapper._wrap_cpu_code p cc) r_cut_constituent
                array_size_union
                (Wrapper._wrap_gpu_code p ci) kernel_name
                (gpu_includes (get_gpu_compilation_settings B)
                   ++ ["-DUNION_EVAL"])
                (cuda_devrt_lib_path (get_gpu_compilation_settings B))
                (max_arch (get_gpu_compilation_settings B))
  | CPU =>
      exists r_cut_isotropic param_array r_cut_constituent,
        req = PatchEnergyJITUnion
                (Wrapper._wrap_cpu_code p ci) (get_cpu_include_options B)
                r_cut_isotropic param_array
                (Wrapper._wrap_cpu_code p cc) r_cut_constituent
  end.

(** ** What a call leaves alone *)

(** A computation every run of which, returning or raising, relates the
    world before to the world after. *)
Definition steps (R : world -> world -> Prop) {A : Type} (m : M A) : Prop :=
  forall w, R w (snd (m w)).

(** The parameters of the object are as before. *)
Definition same_params (w w' : world) : Prop :=
  _param_dict (self w') = _param_dict (self w) /\
  _typeparam_dict (self w') = _typeparam_dict (self w).

(** The parameters, the instance attributes and the store are as
    before. *)
Definition same_host (w w' : world) : Prop :=
  same_params w w' /\
  inst_dict (self w') = inst_dict (self w) /\
  heap w' = heap w.

(** Nothing but the record of calls changed. *)
Definition untouched (w w' : world) : Prop :=
  self w' = self w /\ heap w' = heap w /\
  integrator_patch w' = integrator_patch w.

(** A computation that is [untouched] whenever it returns. *)
Definition keeps {A : Type} (m : M A) : Prop :=
  forall w a w', m w = (inr a, w') -> untouched w w'.

(** A computation that never raises [CompilationFailed]. *)
Definition no_cf {A : Type} (m : M A) : Prop :=
  forall w e w', m w = (inl e, w') -> forall d, e <> CompilationFailed d.

(** A computation that is [untouched] whenever it raises
    [CompilationFailed]. *)
Definition cf_clean {A : Type} (m : M A) : Prop :=
  forall w d w', m w = (inl (CompilationFailed d), w') -> untouched w w'.

(** The request the scalar [_attach] hands to the compiler for the body
    [code] and the values [r_cut] and [param_array] of the object. *)
Definition scalar_request (B : backend) (p : potential) (device : device_kind)
    (code : string) (r_cut param_array : pyval) : jit_request :=
  match device with
  | GPU =>
      PatchEnergyJITGPU
        (Wrapper._wrap_cpu_code p code) (get_cpu_include_options B)
        r_cut param_array
        (Wrapper._wrap_gpu_code p code) kernel_name
        (gpu_includes (get_gpu_compilation_settings B))
        (cuda_devrt_lib_path (get_gpu_compilation_settings B))
        (max_arch (get_gpu_compilation_settings B))
  | CPU =>
      PatchEnergyJIT
        (Wrapper._wrap_cpu_code p code) (get_cpu_include_options B)
        r_cut param_array
  end.

Module Scenario2.

(** A compiler that rejects every source. *)
Definition B_reject : backend :=
  Backend ["-I/usr/include/hoomd"]
          (GpuSettings ["-I/usr/local/cuda/include"] "/usr/local/cuda/lib64" 80)
          (fun _ => Some "error: expected expression")
          (fun _ => ([0; 0], [0]))
          (fun timestep => timestep).

(** The scalar potential of the scenario after a rejected attach. *)
Definition w_scalar_rejected : world :=
  snd (CPPPotential._attach B_reject Scenario.sim_cpu Scenario.w_scalar).

(** A scalar potential constructed without a parameter array. *)
Definition w_scalar_default : world :=
  snd (CPPPotential.__init__ 11 (Some "return 0.0f;") None Scenario.w0).

(** The union potential straight from its constructor, after the attempt
    to attach it on a CPU. *)
Definition w_constructed_cpu : world :=
  snd (_CPPUnionPotential._attach Scenario.B0 Scenario.sim_cpu
         Scenario.w_constructed).

(** The union potential of the scenario with its constituent body
    replaced. *)
Definition w_union_recoded : world :=
  snd (_CPPUnionPotential.set_code_constituent (PyStr "return 2.0f;")
         Scenario.w_union).

(** The scalar potential constructed without a parameter array, after
    it is attached. *)
Definition w_scalar_default_cpu : world :=
  snd (CPPPotential._attach Scenario.B0 Scenario.sim_cpu w_scalar_default).


End Scenario2.

(** * Properties *)

(** ** The wrappers *)

Section WrapperFacts.
Import Wrapper.

Lemma append_cons (c : ascii) (a b : string) :
  String c a +:+ b = String c (a +:+ b).
Proof. reflexivity. Qed.

Lemma append_empty_l (a : string) : EmptyString +:+ a = a.
Proof. reflexivity. Qed.

Lemma append_assoc (a b c : string) : (a +:+ b) +:+ c = a +:+ (b +:+ c).
Proof.
  induction a as [|x a IH]; [reflexivity|].
  rewrite !append_cons. now rewrite IH.
Qed.









End WrapperFacts.

Section WrapperTheorems.
Import Wrapper.












End WrapperTheorems.

(** C6. The source builder is deterministic: for either target, two calls
    with the same body give the same text, byte for byte, whatever object
    they are called on and whatever the rest of the world looks like; the
    text is the fixed head, the body and the fixed tail. *)
Theorem wrap_deterministic (target : device_kind) (code : string)
    (w1 w2 : world) :
  fst (call_wrap target (PyStr code) w1) = fst (call_wrap target (PyStr code) w2)
  /\ Wrapper._wrap_cpu_code (self w1) code = Wrapper._wrap_cpu_code (self w2) code
  /\ Wrapper._wrap_gpu_code (self w1) code = Wrapper._wrap_gpu_code (self w2) code
  /\ Wrapper._wrap_cpu_code (self w1) code
       = (Wrapper.cpu_head +:+ code) +:+ Wrapper.cpu_tail
  /\ Wrapper._wrap_gpu_code (self w1) code
       = (Wrapper.gpu_head +:+ code) +:+ Wrapper.gpu_tail
  /\ String.list_byte_of_string (Wrapper._wrap_cpu_code (self w1) code)
       = String.list_byte_of_string (Wrapper._wrap_cpu_code (self w2) code)
  /\ String.list_byte_of_string (Wrapper._wrap_gpu_code (self w1) code)
       = String.list_byte_of_string (Wrapper._wrap_gpu_code (self w2) code).
Proof. repeat split. Qed.

(** ** Running a method *)

Section MonadFacts.
Context {A B : Type}.

Lemma bind_inr (m : M A) (k : A -> M B) (w w' : world) (b : B) :
  bind m k w = (inr b, w') ->
  exists a w1, m w = (inr a, w1) /\ k a w1 = (inr b, w').
Proof.
  unfold bind. destruct (m w) as [[e|a] w1]; intros H.
  - discriminate.
  - now exists a, w1.
Qed.

Lemma bind_step (m : M A) (k : A -> M B) (w w1 : world) (a : A) :
  m w = (inr a, w1) -> bind m k w = k a w1.
Proof. unfold bind. now intros ->. Qed.

Lemma bind_raise (m : M A) (k : A -> M B) (w w1 : world) (e : exn) :
  m w = (inl e, w1) -> bind m k w = (inl e, w1).
Proof. unfold bind. now intros ->. Qed.

Lemma bind_assoc {C : Type} (m : M A) (k1 : A -> M B) (k2 : B -> M C)
    (w : world) :
  bind (bind m k1) k2 w = bind m (fun a => bind (k1 a) k2) w.
Proof. unfold bind. now destruct (m w) as [[e|a] w1]. Qed.
End MonadFacts.

(** ** Attaching needs a ready HPMC integrator *)

(** C1. When the integrator of the simulation is not an HPMC integrator,
    or is one that is not attached, [_attach] of the scalar and of the
    union potential raises the precondition error ([RuntimeError]) and
    leaves the world as it was: no wrapper was called and no compilation
    requested (the record of calls is unchanged), no evaluator was stored
    (the object stays unattached) and the cutoff, the code and the
    parameter values are untouched. *)
Theorem attach_needs_ready_integrator (B : backend) (sim : simulation) (w : world) :
  isinstance_hpmc (sim_integrator sim) = false \/
  integrator_attached (sim_integrator sim) = false ->
  (exists msg, CPPPotential._attach B sim w = (inl (RuntimeError msg), w)) /\
  (exists msg, _CPPUnionPotential._attach B sim w = (inl (RuntimeError msg), w)).
Proof.
  intros H. unfold CPPPotential._attach, _CPPUnionPotential._attach.
  destruct (isinstance_hpmc (sim_integrator sim)); simpl.
  - destruct H as [H|H]; [discriminate|]. rewrite H. simpl.
    split; eexists; reflexivity.
  - split; eexists; reflexivity.
Qed.

(** ** The energy query *)

(** C5. [energy] returns [None] exactly when the potential is not
    attached, so an unattached potential never reports a number; when it
    is attached to an attached HPMC integrator it returns that
    integrator's [computePatchEnergy] at the current time step.  The query
    changes nothing. *)
Theorem energy_none_iff_unattached (B : backend) (sim : simulation) (w : world) :
  (fst (CPPPotentialBase.energy B sim w) = inr PyNone <->
     _attached (self w) = false)
  /\ (forall x, fst (CPPPotentialBase.energy B sim w) = inr (PyFloat x) ->
        _attached (self w) = true /\
        sim_integrator sim = HPMCIntegrator true /\
        x = computePatchEnergy B (sim_timestep sim))
  /\ (_attached (self w) = true ->
      sim_integrator sim = HPMCIntegrator true ->
      fst (CPPPotentialBase.energy B sim w) =
        inr (PyFloat (computePatchEnergy B (sim_timestep sim))))
  /\ (forall n, fst (CPPPotentialBase.energy B sim w) <> inr (PyInt n))
  /\ snd (CPPPotentialBase.energy B sim w) = w.
Proof.
  unfold CPPPotentialBase.energy, bind, get_self, ret, raise.
  destruct (_attached (self w)); simpl.
  - destruct (sim_integrator sim) as [|a|[|]]; simpl;
      repeat split; intros; try congruence; try discriminate.
  - repeat split; intros; try congruence; try discriminate.
Qed.

(** ** The property [code_constituent] *)

(** C8. On an attached union potential the setter of [code_constituent]
    raises [AttributeError] and changes nothing; on an unattached one it
    succeeds, a following read returns exactly the body just stored, and
    nothing but that attribute changed. *)
Theorem code_constituent_setter (w : world) (code : pyval) :
  (_attached (self w) = true ->
     exists msg,
       _CPPUnionPotential.set_code_constituent code w = (inl (AttributeError msg), w))
  /\ (_attached (self w) = false ->
     exists w',
       _CPPUnionPotential.set_code_constituent code w = (inr tt, w') /\
       _CPPUnionPotential.code_constituent w' = (inr code, w') /\
       _attached (self w') = false /\
       _param_dict (self w') = _param_dict (self w) /\
       heap w' = heap w /\ calls w' = calls w).
Proof.
  unfold _CPPUnionPotential.set_code_constituent, _CPPUnionPotential.code_constituent.
  unfold bind, get_self, put_self, ret, raise. simpl.
  split; intros H; rewrite H.
  - eexists. reflexivity.
  - eexists. split; [reflexivity|]. simpl.
    rewrite lookup_insert_eq. repeat split; auto.
Qed.

(** ** Construction *)

Lemma forallb_false_of_member (f : float32 -> bool) (a : list float32) :
  (exists x, In x a /\ f x = false) -> forallb f a = false.
Proof.
  intros (x & Hin & Hx).
  destruct (forallb f a) eqn:E; [|reflexivity].
  rewrite forallb_forall in E. specialize (E x Hin). congruence.
Qed.

Lemma pd_setitem_free (key : string) (v : pyval) (pd : ParameterDict) :
  pd_validators pd !! key = None ->
  pd_setitem key v pd =
    inr (MkParameterDict (<[key := v]> (pd_values pd)) (pd_validators pd)).
Proof. unfold pd_setitem. now intros ->. Qed.

Lemma pd_setitem_other (key k : string) (v : pyval) (pd pd' : ParameterDict) :
  pd_setitem key v pd = inr pd' -> k <> key ->
  pd_values pd' !! k = pd_values pd !! k.
Proof.
  unfold pd_setitem. intros H Hne.
  destruct (pd_validators pd !! key) as [n|].
  - destruct (nd_validate key n v); [discriminate|].
    injection H as <-. simpl. now rewrite lookup_insert_ne.
  - injection H as <-. simpl. now rewrite lookup_insert_ne.
Qed.

Lemma pd_setitem_same (key : string) (v : pyval) (pd pd' : ParameterDict) :
  pd_setitem key v pd = inr pd' -> pd_values pd' !! key = Some v.
Proof.
  unfold pd_setitem. intros H.
  destruct (pd_validators pd !! key) as [n|].
  - unfold nd_validate in H. destruct v; try discriminate.
    destruct (negb _); [discriminate|].
    destruct (forallb isfinite a); [|discriminate].
    injection H as <-. simpl. apply lookup_insert_eq.
  - injection H as <-. simpl. apply lookup_insert_eq.
Qed.

(** An assignment to a parameter that returns has replaced the parameter
    dictionary of the object, and in it only the entry assigned. *)
Lemma setattr_param_inv (name : string) (v : pyval) (w w' : world) :
  setattr_param name v w = (inr tt, w') ->
  exists pd',
    w' = World (set_param_dict pd' (self w)) (heap w) (calls w)
               (integrator_patch w) /\
    (forall k, k <> name ->
       pd_values pd' !! k = pd_values (_param_dict (self w)) !! k) /\
    pd_values pd' !! name = Some v.
Proof.
  unfold setattr_param, bind, get_self, put_self, lift.
  destruct v as [| | | |a|]. 
  1-4,6: (destruct (pd_setitem _ _ _) as [e|pd'] eqn:E; [discriminate|];
          intros [= <-]; exists pd'; split; [reflexivity|]; split;
          [intros k Hk; exact (pd_setitem_other _ k _ _ _ E Hk)
          |exact (pd_setitem_same _ _ _ _ E)]).
  destruct (_attached (self w) && _); [discriminate|].
  destruct (pd_setitem _ _ _) as [e|pd'] eqn:E; [discriminate|].
  intros [= <-]. exists pd'. split; [reflexivity|]. split.
  - intros k Hk. exact (pd_setitem_other _ k _ _ _ E Hk).
  - exact (pd_setitem_same _ _ _ _ E).
Qed.

(** The base constructor rejects an initial array with a non-finite
    element while it is still filling its local dictionary. *)
Lemma base_init_rejects_nonfinite (r_cut : pyfloat) (code : option string)
    (a : list float32) (w : world) :
  forallb isfinite a = false ->
  CPPPotentialBase.__init__ r_cut code (Some a) w =
    (inl (InvalidParameterError "param_array"), w).
Proof.
  intros Hbad. unfold CPPPotentialBase.__init__.
  rewrite pd_setitem_free by (simpl; now rewrite lookup_insert_ne).
  simpl. unfold bind at 1. simpl.
  rewrite pd_setitem_free by (simpl; now rewrite lookup_insert_ne).
  simpl. unfold bind at 1. simpl.
  unfold pd_setitem. simpl. rewrite lookup_insert_eq.
  unfold nd_validate. rewrite Nat.eqb_refl, Hbad. reflexivity.
Qed.

(** C9. Constructing a potential with an initial parameter array that
    holds a non-finite value (an infinity or a NaN) fails with
    [InvalidParameterError], for the base class, the scalar potential and
    the union potential alike, and the object is left exactly as it was:
    nothing was stored. *)
Theorem init_rejects_nonfinite (r_cut : pyfloat) (code : option string)
    (a : list float32) (w : world) :
  (exists x, In x a /\ isfinite x = false) ->
  CPPPotentialBase.__init__ r_cut code (Some a) w =
    (inl (InvalidParameterError "param_array"), w)
  /\ CPPPotential.__init__ r_cut code (Some a) w =
    (inl (InvalidParameterError "param_array"), w)
  /\ (forall (r_cut_constituent : pyfloat) (code_constituent : option string),
        _CPPUnionPotential.__init__ r_cut_constituent r_cut code_constituent
          code (Some a) w =
        (inl (InvalidParameterError "param_array"), w)).
Proof.
  intros H. apply forallb_false_of_member in H.
  repeat split; intros.
  - now apply base_init_rejects_nonfinite.
  - now apply base_init_rejects_nonfinite.
  - unfold _CPPUnionPotential.__init__.
    erewrite bind_raise; [reflexivity|].
    now apply base_init_rejects_nonfinite.
Qed.

(** C10. Whatever arguments the constructor of the union potential is
    given (there is none for the leaf capacity), a constructed object has
    [leaf_capacity] equal to 4, hence at least 1. *)
Theorem union_init_leaf_capacity (r_cut_constituent r_cut_isotropic : pyfloat)
    (code_constituent code_isotropic : option string)
    (param_array : option (list float32)) (w w' : world) :
  _CPPUnionPotential.__init__ r_cut_constituent r_cut_isotropic
    code_constituent code_isotropic param_array w = (inr tt, w') ->
  exists n, pd_values (_param_dict (self w')) !! "leaf_capacity" = Some (PyInt n)
            /\ n = 4 /\ 1 <= n.
Proof.
  intros H. exists 4. split; [|lia].
  unfold _CPPUnionPotential.__init__ in H.
  apply bind_inr in H as ([] & w1 & _ & H).
  apply bind_inr in H as (p & w2 & Hp & H).
  apply bind_inr in H as ([] & w3 & H3 & H).
  apply bind_inr in H as ([] & w4 & H4 & H).
  apply bind_inr in H as ([] & w5 & H5 & H).
  apply bind_inr in H as ([] & w6 & H6 & H).
  apply setattr_param_inv in H as (pd' & -> & Hother & _).
  unfold get_self in Hp. injection Hp as <- <-.
  unfold put_self in H3. injection H3 as <-.
  unfold _CPPUnionPotential._extend_typeparam, setattr_inst, bind, get_self,
    put_self in H4, H5, H6.
  injection H4 as <-. injection H5 as <-. injection H6 as <-.
  simpl in Hother. simpl.
  rewrite Hother by discriminate.
  simpl. apply lookup_union_Some_l.
  rewrite lookup_insert_ne by discriminate.
  rewrite lookup_insert_ne by discriminate.
  apply lookup_insert_eq.
Qed.

(** ** The length of the parameter array *)

Lemma resize_values_length (a : list float32) (n : nat) :
  length (ParameterArray.resize_values a n) = n.
Proof.
  unfold ParameterArray.resize_values.
  rewrite length_app, length_take, repeat_length. lia.
Qed.

Lemma assign_attached_other_length (a : list float32) (w : world) :
  _attached (self w) = true ->
  length a <> length (ParameterArray.values (self w)) ->
  ParameterArray.assign a w
    = (inl (AttachedImmutableError "param_array"), w).
Proof.
  intros Hat Hne.
  unfold ParameterArray.assign, setattr_param, bind, get_self.
  rewrite Hat.
  replace (stored_length "param_array" (self w))
    with (length (ParameterArray.values (self w))).
  - apply Nat.eqb_neq in Hne. rewrite Hne. reflexivity.
  - unfold stored_length, ParameterArray.values.
    destruct (pd_values (_param_dict (self w)) !! "param_array") as [[]|];
      reflexivity.
Qed.

Lemma assign_unattached (a : list float32) (w : world) :
  _attached (self w) = false ->
  forallb isfinite a = true ->
  exists w',
    ParameterArray.assign a w = (inr tt, w') /\
    ParameterArray.values (self w') = a /\
    _attached (self w') = false.
Proof.
  intros Hun Hfin.
  unfold ParameterArray.assign, setattr_param, bind, get_self.
  rewrite Hun. simpl.
  unfold pd_setitem, pd_register. simpl. rewrite lookup_insert_eq.
  unfold nd_validate. rewrite Nat.eqb_refl, Hfin. simpl.
  eexists. split; [reflexivity|].
  unfold ParameterArray.values. simpl. rewrite lookup_insert_eq.
  split; [reflexivity|exact Hun].
Qed.

(** C4. While the potential is not attached, resizing its parameter
    array to any length [n] succeeds and leaves an array of [n] elements
    on a potential that is still not attached, and so does assigning any
    array of [n] finite elements.  While the potential is attached,
    resizing to any length [n] fails with [AttachedImmutableError] and
    changes nothing, the stored length included, and so does assigning an
    array whose length [n] is not the stored one. *)
Theorem resize_only_before_attach (n : nat) (w : world) :
  (_attached (self w) = false ->
     (exists w',
         ParameterArray.resize n w = (inr tt, w') /\
         length (ParameterArray.values (self w')) = n /\
         _attached (self w') = false)
     /\ (forall a : list float32,
           length a = n -> forallb isfinite a = true ->
           exists w',
             ParameterArray.assign a w = (inr tt, w') /\
             length (ParameterArray.values (self w')) = n /\
             _attached (self w') = false))
  /\ (_attached (self w) = true ->
        ParameterArray.resize n w
          = (inl (AttachedImmutableError "param_array"), w)
        /\ (forall a : list float32,
              length a = n ->
              n <> length (ParameterArray.values (self w)) ->
              ParameterArray.assign a w
                = (inl (AttachedImmutableError "param_array"), w))).
Proof.
  split.
  - intros Hun. split.
    + unfold ParameterArray.resize, bind, get_self. rewrite Hun.
      eexists. split; [reflexivity|].
      unfold ParameterArray.values at 1. simpl. rewrite lookup_insert_eq.
      split; [apply resize_values_length|exact Hun].
    + intros a Hlen Hfin.
      destruct (assign_unattached a w Hun Hfin) as (w' & E & Hv & Hu).
      exists w'. rewrite Hv. auto.
  - intros Hat. split.
    + unfold ParameterArray.resize, bind, get_self. now rewrite Hat.
    + intros a Hlen Hne. apply assign_attached_other_length; [exact Hat|].
      now rewrite Hlen.
Qed.

(** ** Inverting the steps of [_attach] *)

Lemma getattr_run (name : string) (w : world) :
  getattr name w =
  (match inst_dict (self w) !! name with
   | Some v => inr v
   | None =>
       match pd_values (_param_dict (self w)) !! name with
       | Some v => inr v
       | None => inl (AttributeError name)
       end
   end, w).
Proof.
  unfold getattr, bind, get_self, ret, raise.
  destruct (inst_dict (self w) !! name); [reflexivity|].
  destruct (pd_values (_param_dict (self w)) !! name) eqn:E; [|reflexivity].
  unfold _getattr_param, param_dict_getitem, bind, get_self, ret.
  destruct (String.eqb_spec name "code") as [->|_]; now rewrite E.
Qed.

Lemma getattr_inv (name : string) (w w' : world) (v : pyval) :
  getattr name w = (inr v, w') -> w' = w /\ fst (getattr name w) = inr v.
Proof.
  intros H. split; [|now rewrite H].
  rewrite getattr_run in H. now injection H.
Qed.

(** Reading an attribute depends on the two dictionaries of the object
    only. *)
Lemma getattr_same_dicts (name : string) (w1 w2 : world) :
  inst_dict (self w1) = inst_dict (self w2) ->
  _param_dict (self w1) = _param_dict (self w2) ->
  fst (getattr name w1) = fst (getattr name w2).
Proof. intros E1 E2. rewrite !getattr_run. simpl. now rewrite E1, E2. Qed.

Lemma call_wrap_inv (t : device_kind) (c : pyval) (w w' : world) (s : string) :
  call_wrap t c w = (inr s, w') ->
  w' = World (self w) (heap w) (calls w ++ [EvWrap t c]) (integrator_patch w).
Proof.
  unfold call_wrap, bind, emit, get_self, ret, raise. simpl.
  destruct c; intros H; try discriminate. now injection H.
Qed.

Lemma jit_new_union_inv (B : backend) (req : jit_request) (w w' : world)
    (o : cpp_obj) :
  is_union_request req = true ->
  jit_new B req w = (inr o, w') ->
  o = PatchEnergyUnion req (length (heap w)) (S (length (heap w))) /\
  self w' = self w /\
  heap w' = heap w ++ [fst (engine_buffers B req); snd (engine_buffers B req)].
Proof.
  intros Hu. unfold jit_new, bind, emit, alloc, ret, raise. simpl.
  destruct (jit_compile B req); [discriminate|]. rewrite Hu. simpl.
  intros H. injection H as <- <-. simpl.
  rewrite length_app. simpl. rewrite Nat.add_1_r.
  rewrite <- app_assoc. repeat split.
Qed.

Lemma slice_assign_inv (dst src : loc) (w w' : world) :
  slice_assign dst src w = (inr tt, w') ->
  exists s d v,
    heap w !! src = Some s /\ heap w !! dst = Some d /\
    broadcast s (length d) = Some v /\
    self w' = self w /\ heap w' = <[dst := v]> (heap w).
Proof.
  unfold slice_assign, bind, load, store, raise.
  destruct (heap w !! src) as [s|] eqn:Es; [|discriminate].
  simpl. destruct (heap w !! dst) as [d|] eqn:Ed; [|discriminate].
  destruct (broadcast s (length d)) as [v|] eqn:Ev; [|discriminate].
  intros H. injection H as <-. exists s, d, v. repeat split; auto.
Qed.

Lemma super_attach_inv (w w' : world) :
  super_attach w = (inr tt, w') -> self w' = self w /\ heap w' = heap w.
Proof.
  unfold super_attach, bind, get_self, emit, ret.
  destruct (_cpp_obj (self w)); intros H; injection H as <-; auto.
Qed.

Lemma as_array_inv (v : pyval) (w w' : world) (l : loc) :
  as_array v w = (inr l, w') -> v = PyRef l /\ w' = w.
Proof.
  destruct v; unfold as_array, ret, raise; intros H; try discriminate.
  now injection H as <- <-.
Qed.

Lemma norm_index_lt (n : nat) (i : Z) (k : nat) :
  norm_index n i = Some k -> (k < n)%nat.
Proof.
  unfold norm_index.
  destruct ((0 <=? i) && (i <? Z.of_nat n)) eqn:E1.
  - intros [= <-]. apply andb_true_iff in E1 as [? ?]. lia.
  - destruct ((- Z.of_nat n <=? i) && (i <? 0)) eqn:E2; [|discriminate].
    intros [= <-]. apply andb_true_iff in E2 as [? ?]. lia.
Qed.

(** ** The union potential's arrays after [_attach] *)

Lemma broadcast_length (s v : list float32) (n : nat) :
  broadcast s n = Some v -> length v = n.
Proof.
  unfold broadcast. destruct (Nat.eqb_spec (length s) n) as [E|_].
  - now intros [= <-].
  - destruct s as [|x [|]]; try discriminate.
    intros [= <-]. apply repeat_length.
Qed.

Lemma broadcast_same_length (s : list float32) :
  broadcast s (length s) = Some s.
Proof. unfold broadcast. now rewrite Nat.eqb_refl. Qed.

(** Writing through a name that refers to array [b] and reading it back. *)
Lemma setitem_getitem (name : string) (b : loc) (d : list float32)
    (i : Z) (x : float32) (k : nat) (w : world) :
  inst_dict (self w) !! name = Some (PyRef b) ->
  heap w !! b = Some d ->
  norm_index (length d) i = Some k ->
  exists w',
    array_setitem name i x w = (inr tt, w') /\
    array_getitem name i w' = (inr x, w') /\
    heap w' !! b = Some (<[k := x]> d) /\
    self w' = self w.
Proof.
  intros Hname Hb Hk.
  exists (World (self w) (<[b := <[k := x]> d]> (heap w)) (calls w)
                (integrator_patch w)).
  assert (Hlt : (b < length (heap w))%nat) by (eapply lookup_lt_Some; eauto).
  assert (Hb' : <[b := <[k := x]> d]> (heap w) !! b = Some (<[k := x]> d))
    by now apply list_lookup_insert_eq.
  repeat split.
  - unfold array_setitem, bind. rewrite getattr_run, Hname. simpl.
    unfold load. rewrite Hb, Hk. reflexivity.
  - unfold array_getitem, bind. rewrite getattr_run. simpl. rewrite Hname.
    simpl. unfold load. simpl. rewrite Hb'.
    rewrite length_insert, Hk.
    rewrite list_lookup_insert_eq by (eapply norm_index_lt; eauto).
    reflexivity.
  - exact Hb'.
Qed.

(** The evaluator built by the union [_attach] owns two new arrays. *)
Lemma union_build_inv (B : backend) (sim : simulation)
    (cpu_code_constituent cpu_code_isotropic : string) (w w' : world)
    (o : cpp_obj) :
  match sim_device sim with
  | GPU =>
      let gpu_settings := get_gpu_compilation_settings B in
      code <- getattr "_code_isotropic" ;;
      gpu_code_isotropic <- call_wrap GPU code ;;
      r_cut_isotropic <- getattr "r_cut_isotropic" ;;
      param_array <- getattr "param_array" ;;
      r_cut_constituent <- getattr "r_cut_constituent" ;;
      array_size_union <- getattr "array_size_union" ;;
      jit_new B (PatchEnergyJITUnionGPU
                   cpu_code_isotropic r_cut_isotropic param_array
                   cpu_code_constituent r_cut_constituent
                   array_size_union
                   gpu_code_isotropic kernel_name
                   (gpu_includes gpu_settings ++ ["-DUNION_EVAL"])
                   (cuda_devrt_lib_path gpu_settings)
                   (max_arch gpu_settings))
  | CPU =>
      r_cut_isotropic <- getattr "r_cut_isotropic" ;;
      param_array <- getattr "param_array" ;;
      r_cut_constituent <- getattr "r_cut_constituent" ;;
      jit_new B (PatchEnergyJITUnion
                   cpu_code_isotropic (get_cpu_include_options B)
                   r_cut_isotropic param_array
                   cpu_code_constituent r_cut_constituent)
  end w = (inr o, w') ->
  exists req,
    o = PatchEnergyUnion req (length (heap w)) (S (length (heap w))) /\
    self w' = self w /\
    heap w' = heap w ++ [fst (engine_buffers B req); snd (engine_buffers B req)].
Proof.
  destruct (sim_device sim); intros H.
  - apply bind_inr in H as (v1 & w1 & H1 & H). apply getattr_inv in H1 as [-> _].
    apply bind_inr in H as (v2 & w2 & H2 & H). apply getattr_inv in H2 as [-> _].
    apply bind_inr in H as (v3 & w3 & H3 & H). apply getattr_inv in H3 as [-> _].
    apply jit_new_union_inv in H; [|reflexivity]. eexists; exact H.
  - cbv zeta in H.
    apply bind_inr in H as (v0 & w0 & H0 & H). apply getattr_inv in H0 as [-> _].
    apply bind_inr in H as (s0 & w0' & H0 & H). apply call_wrap_inv in H0 as ->.
    apply bind_inr in H as (v1 & w1 & H1 & H). apply getattr_inv in H1 as [-> _].
    apply bind_inr in H as (v2 & w2 & H2 & H). apply getattr_inv in H2 as [-> _].
    apply bind_inr in H as (v3 & w3 & H3 & H). apply getattr_inv in H3 as [-> _].
    apply bind_inr in H as (v4 & w4 & H4 & H). apply getattr_inv in H4 as [-> _].
    apply jit_new_union_inv in H; [|reflexivity]. eexists; exact H.
Qed.

Lemma refs_in_lookup (n : nat) (m : gmap string pyval) (name : string) (l : loc) :
  refs_in n m = true -> m !! name = Some (PyRef l) -> (l < n)%nat.
Proof.
  unfold refs_in. rewrite forallb_forall. intros H E.
  apply elem_of_map_to_list, list_elem_of_In in E.
  specialize (H _ E). simpl in H. now apply Nat.ltb_lt.
Qed.

Lemma getattr_ref_allocated (name : string) (w : world) (l : loc) :
  store_wf w -> fst (getattr name w) = inr (PyRef l) -> (l < length (heap w))%nat.
Proof.
  intros [Hi Hp]. rewrite getattr_run. simpl.
  destruct (inst_dict (self w) !! name) as [v|] eqn:E1.
  - intros [= ->]. exact (refs_in_lookup _ _ _ _ Hi E1).
  - destruct (pd_values (_param_dict (self w)) !! name) as [v|] eqn:E2.
    + intros [= ->]. exact (refs_in_lookup _ _ _ _ Hp E2).
    + discriminate.
Qed.

(** C2. After a successful [_attach] of the union potential the values the
    host held in [alpha_iso] and in [alpha_union] have been copied into the
    two buffers the evaluator allocated, and both names then refer to those
    buffers: a write through either name at a valid index is read back
    unchanged, and it is the evaluator's buffer that holds it. *)
Theorem union_attach_copies_then_aliases (B : backend) (sim : simulation)
    (w w' : world) :
  store_wf w ->
  _CPPUnionPotential._attach B sim w = (inr tt, w') ->
  exists (req : jit_request) (h_iso h_union : loc)
         (v_iso v_union d_iso d_union : list float32),
    let b_iso := length (heap w) in
    let b_union := S (length (heap w)) in
    (* what the host held *)
    fst (getattr "alpha_iso" w) = inr (PyRef h_iso) /\
    heap w !! h_iso = Some v_iso /\
    fst (getattr "alpha_union" w) = inr (PyRef h_union) /\
    heap w !! h_union = Some v_union /\
    (* the evaluator and its buffers, which hold the host's values *)
    _cpp_obj (self w') = Some (PatchEnergyUnion req b_iso b_union) /\
    broadcast v_iso (length (fst (engine_buffers B req))) = Some d_iso /\
    heap w' !! b_iso = Some d_iso /\
    broadcast v_union (length (snd (engine_buffers B req))) = Some d_union /\
    heap w' !! b_union = Some d_union /\
    (* the names now refer to the buffers *)
    inst_dict (self w') !! "alpha_iso" = Some (PyRef b_iso) /\
    inst_dict (self w') !! "alpha_union" = Some (PyRef b_union) /\
    (* write, then read *)
    (forall (i : Z) (x : float32) (k : nat),
        norm_index (length d_iso) i = Some k ->
        exists w'',
          array_setitem "alpha_iso" i x w' = (inr tt, w'') /\
          array_getitem "alpha_iso" i w'' = (inr x, w'') /\
          heap w'' !! b_iso = Some (<[k := x]> d_iso)) /\
    (forall (i : Z) (x : float32) (k : nat),
        norm_index (length d_union) i = Some k ->
        exists w'',
          array_setitem "alpha_union" i x w' = (inr tt, w'') /\
          array_getitem "alpha_union" i w'' = (inr x, w'') /\
          heap w'' !! b_union = Some (<[k := x]> d_union)).
Proof.
  intros Hwf H. unfold _CPPUnionPotential._attach in H.
  destruct (isinstance_hpmc (sim_integrator sim)); [|discriminate].
  destruct (integrator_attached (sim_integrator sim)); [|discriminate].
  simpl in H.
  apply bind_inr in H as (c1 & w1 & H1 & H). apply getattr_inv in H1 as [-> _].
  apply bind_inr in H as (s1 & w1 & H1 & H). apply call_wrap_inv in H1 as ->.
  apply bind_inr in H as (c2 & w2 & H2 & H). apply getattr_inv in H2 as [-> _].
  apply bind_inr in H as (s2 & w2 & H2 & H). apply call_wrap_inv in H2 as ->.
  apply bind_inr in H as (o & w3 & Ho & H).
  apply union_build_inv in Ho as (req & -> & Hs3 & Hh3). simpl in Hs3, Hh3.
  apply bind_inr in H as (p & w4 & Hp & H). injection Hp as <- <-.
  apply bind_inr in H as ([] & w5 & H5 & H). injection H5 as <-.
  set (N := length (heap w)) in *.
  set (bufs := engine_buffers B req) in *.
  (* line 469 *)
  apply bind_inr in H as (host1 & w6 & H6 & H). apply getattr_inv in H6 as [-> Hg1].
  apply bind_inr in H as (h_iso & w6 & H6 & H). apply as_array_inv in H6 as [-> ->].
  apply bind_inr in H as (dst1 & w6 & H6 & H).
  unfold cpp_alpha_iso, bind, get_self in H6. simpl in H6. injection H6 as <- <-.
  apply bind_inr in H as ([] & w7 & H7 & H).
  apply slice_assign_inv in H7 as (v_iso & d1 & d_iso & Hsrc1 & Hdst1 & Hb1 & Hs7 & Hh7).
  simpl in Hsrc1, Hdst1, Hs7, Hh7.
  (* line 470 *)
  apply bind_inr in H as (host2 & w8 & H8 & H). apply getattr_inv in H8 as [-> Hg2].
  apply bind_inr in H as (h_union & w8 & H8 & H). apply as_array_inv in H8 as [-> ->].
  apply bind_inr in H as (dst2 & w8 & H8 & H).
  unfold cpp_alpha_union, bind, get_self in H8. rewrite Hs7 in H8. simpl in H8.
  injection H8 as <- <-.
  apply bind_inr in H as ([] & w9 & H9 & H).
  apply slice_assign_inv in H9 as (v_union & d2 & d_union & Hsrc2 & Hdst2 & Hb2 & Hs9 & Hh9).
  (* lines 471-472 *)
  apply bind_inr in H as (buf1 & w10 & H10 & H).
  unfold cpp_alpha_iso, bind, get_self in H10. rewrite Hs9, Hs7 in H10. simpl in H10.
  injection H10 as <- <-.
  apply bind_inr in H as ([] & w11 & H11 & H).
  unfold setattr_inst, bind, get_self, put_self in H11. injection H11 as <-.
  apply bind_inr in H as (buf2 & w12 & H12 & H).
  unfold cpp_alpha_union, bind, get_self in H12. simpl in H12.
  rewrite Hs9, Hs7 in H12. simpl in H12. injection H12 as <- <-.
  apply bind_inr in H as ([] & w13 & H13 & H).
  unfold setattr_inst, bind, get_self, put_self in H13. simpl in H13.
  injection H13 as <-.
  apply super_attach_inv in H as [Hs' Hh']. simpl in Hs', Hh'.
  (* the host arrays are older than the two buffers *)
  assert (Hg1' : fst (getattr "alpha_iso" w) = inr (PyRef h_iso)).
  { rewrite <- Hg1. apply getattr_same_dicts; simpl; now rewrite Hs3. }
  assert (Hg2' : fst (getattr "alpha_union" w) = inr (PyRef h_union)).
  { rewrite <- Hg2. apply getattr_same_dicts; rewrite Hs7; simpl; now rewrite Hs3. }
  assert (Hlt1 : (h_iso < N)%nat) by (eapply getattr_ref_allocated; eauto).
  assert (Hlt2 : (h_union < N)%nat) by (eapply getattr_ref_allocated; eauto).
  rewrite Hh3 in Hsrc1, Hdst1, Hh7.
  rewrite lookup_app_l in Hsrc1 by exact Hlt1.
  rewrite lookup_app_r in Hdst1 by (unfold N; lia).
  replace (N - length (heap w))%nat with 0%nat in Hdst1 by (unfold N; lia).
  simpl in Hdst1. injection Hdst1 as <-.
  rewrite Hh7 in Hsrc2, Hdst2, Hh9.
  rewrite list_lookup_insert_ne in Hsrc2 by lia.
  rewrite lookup_app_l in Hsrc2 by exact Hlt2.
  rewrite list_lookup_insert_ne in Hdst2 by lia.
  rewrite lookup_app_r in Hdst2 by (unfold N; lia).
  replace (S N - length (heap w))%nat with 1%nat in Hdst2 by (unfold N; lia).
  simpl in Hdst2. injection Hdst2 as <-.
  assert (Hlen : length (heap w ++ [fst bufs; snd bufs]) = S (S N)).
  { rewrite length_app. simpl. unfold N. lia. }
  assert (Hiso : heap w' !! N = Some d_iso).
  { rewrite Hh', Hh9. rewrite list_lookup_insert_ne by lia.
    apply list_lookup_insert_eq. lia. }
  assert (Hunion : heap w' !! S N = Some d_union).
  { rewrite Hh', Hh9. apply list_lookup_insert_eq.
    rewrite length_insert. lia. }
  assert (Hn1 : inst_dict (self w') !! "alpha_iso" = Some (PyRef N)).
  { rewrite Hs'. simpl. rewrite lookup_insert_ne by discriminate.
    apply lookup_insert_eq. }
  assert (Hn2 : inst_dict (self w') !! "alpha_union" = Some (PyRef (S N))).
  { rewrite Hs'. simpl. apply lookup_insert_eq. }
  exists req, h_iso, h_union, v_iso, v_union, d_iso, d_union. cbv zeta.
  repeat split; auto.
  - rewrite Hs'. reflexivity.
  - intros i x k Hk.
    destruct (setitem_getitem "alpha_iso" N d_iso i x k w' Hn1 Hiso Hk)
      as (w'' & ? & ? & ? & _).
    now exists w''.
  - intros i x k Hk.
    destruct (setitem_getitem "alpha_union" (S N) d_union i x k w' Hn2 Hunion Hk)
      as (w'' & ? & ? & ? & _).
    now exists w''.
Qed.

(** ** What the union [_attach] wraps and compiles *)

Section Quiet.
Context (R : jit_request -> Prop).

Lemma silent_quiet {A : Type} (m : M A) : silent m -> quiet R m.
Proof.
  intros H w. exists []. rewrite H, app_nil_r. repeat split. constructor.
Qed.

Lemma quiet_bind {A B : Type} (m : M A) (k : A -> M B) :
  quiet R m -> (forall a, quiet R (k a)) -> quiet R (bind m k).
Proof.
  intros Hm Hk w. destruct (Hm w) as (e1 & E1 & W1 & C1).
  unfold bind. destruct (m w) as [[e|a] w1]; simpl in *.
  - now exists e1.
  - destruct (Hk a w1) as (e2 & E2 & W2 & C2).
    exists (e1 ++ e2). rewrite E2, E1, app_assoc. repeat split.
    + unfold wraps in *. now rewrite List.filter_app, W1, W2.
    + unfold compiles in *. rewrite List.flat_map_app.
      now apply Forall_app.
Qed.

Lemma silent_bind {A B : Type} (m : M A) (k : A -> M B) :
  silent m -> (forall a, silent (k a)) -> silent (bind m k).
Proof.
  intros Hm Hk w. specialize (Hm w). unfold bind.
  destruct (m w) as [[e|a] w1]; simpl in *; [exact Hm|].
  now rewrite Hk.
Qed.

Lemma silent_ret {A : Type} (a : A) : silent (ret a).
Proof. now intros w. Qed.

Lemma silent_raise {A : Type} (e : exn) : silent (@raise A e).
Proof. now intros w. Qed.

Lemma silent_get_self : silent get_self.
Proof. now intros w. Qed.

Lemma silent_put_self (p : potential) : silent (put_self p).
Proof. now intros w. Qed.

Lemma silent_getattr (name : string) : silent (getattr name).
Proof. intros w. now rewrite getattr_run. Qed.

Lemma silent_as_array (v : pyval) : silent (as_array v).
Proof. intros w. now destruct v. Qed.

Lemma silent_cpp_alpha_iso : silent cpp_alpha_iso.
Proof.
  apply silent_bind; [apply silent_get_self|]. intros p.
  destruct (_cpp_obj p) as [[]|]; (apply silent_ret || apply silent_raise).
Qed.

Lemma silent_cpp_alpha_union : silent cpp_alpha_union.
Proof.
  apply silent_bind; [apply silent_get_self|]. intros p.
  destruct (_cpp_obj p) as [[]|]; (apply silent_ret || apply silent_raise).
Qed.

Lemma silent_load (l : loc) : silent (load l).
Proof. intros w. unfold load. now destruct (heap w !! l). Qed.

Lemma silent_store (l : loc) (a : list float32) : silent (store l a).
Proof. now intros w. Qed.

Lemma silent_alloc (a : list float32) : silent (alloc a).
Proof. now intros w. Qed.

Lemma silent_slice_assign (dst src : loc) : silent (slice_assign dst src).
Proof.
  apply silent_bind; [apply silent_load|]. intros s.
  apply silent_bind; [apply silent_load|]. intros d.
  destruct (broadcast s (length d)); [apply silent_store | apply silent_raise].
Qed.

Lemma silent_setattr_inst (name : string) (v : pyval) :
  silent (setattr_inst name v).
Proof.
  apply silent_bind; [apply silent_get_self|]. intros p. apply silent_put_self.
Qed.

Lemma quiet_super_attach : quiet R super_attach.
Proof.
  intros w. unfold super_attach, bind, get_self, emit, ret.
  destruct (_cpp_obj (self w)) as [o|]; simpl.
  - exists [EvInstall o]. repeat split. constructor.
  - exists []. rewrite app_nil_r. repeat split. constructor.
Qed.

Lemma quiet_jit_new (B : backend) (req : jit_request) :
  R req -> quiet R (jit_new B req).
Proof.
  intros Hr w. exists [EvCompile req].
  repeat split; [|repeat constructor; exact Hr].
  unfold jit_new, bind, emit, alloc, ret, raise. simpl.
  destruct (jit_compile B req); [reflexivity|].
  now destruct (is_union_request req).
Qed.

(** Lines 467-475: the copies, the two assignments and the base class's
    [_attach]. *)
Lemma quiet_mirror (o : cpp_obj) :
  quiet R
    (p <- get_self ;;
     put_self (set_cpp_obj (Some o) p) ;;
     host <- getattr "alpha_iso" ;;
     src <- as_array host ;;
     dst <- cpp_alpha_iso ;;
     slice_assign dst src ;;
     host <- getattr "alpha_union" ;;
     src <- as_array host ;;
     dst <- cpp_alpha_union ;;
     slice_assign dst src ;;
     buf <- cpp_alpha_iso ;;
     setattr_inst "alpha_iso" (PyRef buf) ;;
     buf <- cpp_alpha_union ;;
     setattr_inst "alpha_union" (PyRef buf) ;;
     super_attach).
Proof.
  do 14 (apply quiet_bind;
          [ apply silent_quiet;
            first [ apply silent_get_self | apply silent_put_self
                  | apply silent_getattr | apply silent_as_array
                  | apply silent_cpp_alpha_iso | apply silent_cpp_alpha_union
                  | apply silent_slice_assign | apply silent_setattr_inst ]
          | intros ? ]).
  apply quiet_super_attach.
Qed.
End Quiet.

Lemma getattr_inst (name : string) (v : pyval) (w : world) :
  inst_dict (self w) !! name = Some v -> getattr name w = (inr v, w).
Proof. intros E. now rewrite getattr_run, E. Qed.

Lemma call_wrap_str (t : device_kind) (s : string) (w : world) :
  call_wrap t (PyStr s) w =
  (inr (match t with
        | CPU => Wrapper._wrap_cpu_code (self w) s
        | GPU => Wrapper._wrap_gpu_code (self w) s
        end),
   World (self w) (heap w) (calls w ++ [EvWrap t (PyStr s)]) (integrator_patch w)).
Proof. reflexivity. Qed.

Lemma only_wraps (pre : list event) :
  forallb is_wrap pre = true -> wraps pre = pre /\ compiles pre = [].
Proof.
  induction pre as [|x pre IH]; [easy|]. simpl.
  intros H. apply andb_true_iff in H as [Hx Hp].
  destruct (IH Hp) as [-> ->]. destruct x; try discriminate. easy.
Qed.

(** Extending a record of calls that already grew by the wrapper calls
    [pre]. *)
Lemma quiet_after (R : jit_request -> Prop) {A : Type} (m : M A)
    (w w1 : world) (pre : list event) :
  quiet R m ->
  calls w1 = calls w ++ pre ->
  forallb is_wrap pre = true ->
  exists evs, calls (snd (m w1)) = calls w ++ evs /\
              wraps evs = pre /\ Forall R (compiles evs).
Proof.
  intros Hq Hc Hp. destruct (Hq w1) as (e & E & W & C).
  destruct (only_wraps pre Hp) as [Hw Hn].
  exists (pre ++ e). rewrite E, Hc, app_assoc. repeat split.
  - unfold wraps in *. now rewrite List.filter_app, Hw, W, app_nil_r.
  - unfold compiles in *. rewrite List.flat_map_app, Hn. exact C.
Qed.

(** C3, as the code has it.  When the preconditions hold and both bodies
    are strings, the union [_attach] wraps the constituent body and the
    isotropic body for the CPU, in that order, on every device; on a GPU
    device it wraps one more source, the isotropic body for the GPU, and
    the constituent body is not wrapped for the GPU.  Whatever request
    reaches the compiler carries these wrapped sources, and on a GPU its
    include options end with [-DUNION_EVAL]. *)
Theorem union_attach_wraps (B : backend) (sim : simulation) (w : world)
    (cc ci : string) :
  isinstance_hpmc (sim_integrator sim) = true ->
  integrator_attached (sim_integrator sim) = true ->
  inst_dict (self w) !! "_code_constituent" = Some (PyStr cc) ->
  inst_dict (self w) !! "_code_isotropic" = Some (PyStr ci) ->
  exists evs,
    calls (snd (_CPPUnionPotential._attach B sim w)) = calls w ++ evs /\
    wraps evs =
      EvWrap CPU (PyStr cc) :: EvWrap CPU (PyStr ci) ::
      match sim_device sim with
      | GPU => [EvWrap GPU (PyStr ci)]
      | CPU => []
      end /\
    Forall (union_request_for B (self w) (sim_device sim) cc ci) (compiles evs).
Proof.
  intros Hk Ha Hcc Hci. unfold _CPPUnionPotential._attach.
  rewrite Hk, Ha. simpl.
  rewrite (bind_step _ _ _ _ _ (getattr_inst _ _ _ Hcc)).
  rewrite (bind_step _ _ _ _ _ (call_wrap_str CPU cc w)).
  erewrite bind_step by (apply getattr_inst; exact Hci).
  erewrite bind_step by apply call_wrap_str.
  simpl.
  destruct (sim_device sim).
  - (* CPU *)
    eapply quiet_after; [| simpl; rewrite <- app_assoc; reflexivity | reflexivity].
    apply quiet_bind.
    + do 3 (apply quiet_bind; [apply silent_quiet, silent_getattr | intros ?]).
      apply quiet_jit_new. simpl. eauto.
    + intros o. apply quiet_mirror.
  - (* GPU *)
    cbv zeta.
    rewrite bind_assoc.
    erewrite bind_step by (apply getattr_inst; exact Hci).
    rewrite bind_assoc.
    erewrite bind_step by apply call_wrap_str.
    eapply quiet_after;
      [| simpl; rewrite <- !app_assoc; reflexivity | reflexivity].
    apply quiet_bind.
    + do 4 (apply quiet_bind; [apply silent_quiet, silent_getattr | intros ?]).
      apply quiet_jit_new. simpl. eauto 6.
    + intros o. apply quiet_mirror.
Qed.

(** ** The scenario, run *)

Section ScenarioFacts.
Import Scenario.

Lemma w_union_wf : store_wf w_union.
Proof. split; vm_compute; reflexivity. Qed.

Lemma w_union_attach_cpu :
  _CPPUnionPotential._attach B0 sim_cpu w_union = (inr tt, w_union_cpu).
Proof. vm_compute. reflexivity. Qed.

Lemma w_union_attach_gpu :
  _CPPUnionPotential._attach B0 sim_gpu w_union = (inr tt, w_union_gpu).
Proof. vm_compute. reflexivity. Qed.
End ScenarioFacts.

Section Witnesses.
Import Scenario.

(** C1 on the scenario: a molecular-dynamics integrator for the scalar
    potential, an HPMC integrator that is not attached for the union. *)
Lemma attach_needs_ready_integrator_witness :
  (isinstance_hpmc (sim_integrator sim_md) = false /\
   exists msg, CPPPotential._attach B0 sim_md w_scalar
               = (inl (RuntimeError msg), w_scalar)) /\
  (integrator_attached (sim_integrator sim_unready) = false /\
   exists msg, _CPPUnionPotential._attach B0 sim_unready w_union
               = (inl (RuntimeError msg), w_union)).
Proof.
  split; split; try reflexivity.
  - exact (proj1 (attach_needs_ready_integrator B0 sim_md w_scalar
                    (or_introl eq_refl))).
  - exact (proj2 (attach_needs_ready_integrator B0 sim_unready w_union
                    (or_intror eq_refl))).
Defined.

(** C2 on the scenario: after the attach, writing 42 at index -1 of
    [alpha_iso] is read back and sits in the evaluator's buffer. *)
Lemma union_attach_copies_then_aliases_witness :
  store_wf w_union /\
  _CPPUnionPotential._attach B0 sim_cpu w_union = (inr tt, w_union_cpu) /\
  exists w'',
    array_setitem "alpha_iso" (-1) 42 w_union_cpu = (inr tt, w'') /\
    array_getitem "alpha_iso" (-1) w'' = (inr 42, w'') /\
    heap w'' !! 2%nat = Some [5; 42].
Proof.
  split; [exact w_union_wf|]. split; [exact w_union_attach_cpu|].
  destruct (union_attach_copies_then_aliases B0 sim_cpu w_union w_union_cpu
              w_union_wf w_union_attach_cpu)
    as (req & h1 & h2 & v1 & v2 & d1 & d2 & _ & _ & _ & _ & _ & _ & Hd1 & _ & _
        & _ & _ & Hrt & _).
  vm_compute in Hd1. injection Hd1 as <-.
  exact (Hrt (-1) 42 1%nat eq_refl).
Defined.

(** C3 on the scenario, on a GPU. *)
Lemma union_attach_wraps_witness :
  inst_dict (self w_union) !! "_code_constituent" = Some (PyStr "return 1.0f;") /\
  inst_dict (self w_union) !! "_code_isotropic" = Some (PyStr "return 0.0f;") /\
  exists evs,
    calls (snd (_CPPUnionPotential._attach B0 sim_gpu w_union))
      = calls w_union ++ evs /\
    wraps evs =
      [ EvWrap CPU (PyStr "return 1.0f;"); EvWrap CPU (PyStr "return 0.0f;");
        EvWrap GPU (PyStr "return 0.0f;") ] /\
    Forall (union_request_for B0 (self w_union) GPU
              "return 1.0f;" "return 0.0f;") (compiles evs).
Proof.
  split; [vm_compute; reflexivity|]. split; [vm_compute; reflexivity|].
  apply (union_attach_wraps B0 sim_gpu w_union "return 1.0f;" "return 0.0f;");
    vm_compute; reflexivity.
Defined.

(** C3 as the spec words it fails on the scenario: the attach on a GPU
    succeeds and the constituent body is never wrapped for the GPU. *)
Lemma union_gpu_attach_skips_constituent :
  isinstance_hpmc (sim_integrator sim_gpu) = true /\
  integrator_attached (sim_integrator sim_gpu) = true /\
  sim_device sim_gpu = GPU /\
  inst_dict (self w_union) !! "_code_constituent" = Some (PyStr "return 1.0f;") /\
  _CPPUnionPotential._attach B0 sim_gpu w_union = (inr tt, w_union_gpu) /\
  wraps (calls w_union_gpu) =
    [ EvWrap CPU (PyStr "return 1.0f;"); EvWrap CPU (PyStr "return 0.0f;");
      EvWrap GPU (PyStr "return 0.0f;") ] /\
  ~ In (EvWrap GPU (PyStr "return 1.0f;")) (calls w_union_gpu).
Proof.
  split; [reflexivity|]. split; [reflexivity|]. split; [reflexivity|].
  split; [vm_compute; reflexivity|].
  split; [exact w_union_attach_gpu|].
  split; [vm_compute; reflexivity|].
  vm_compute. intros H.
  repeat (destruct H as [H|H]; [discriminate H|]). exact H.
Qed.

(** C4 on the scenario: the scalar potential right after its constructor
    is resized from two parameters to five, and given three by assignment;
    once attached, a resize to five and the assignment of three are both
    refused. *)
Lemma resize_only_before_attach_witness :
  (_attached (self w_scalar) = false /\
   length (ParameterArray.values (self w_scalar)) = 2%nat /\
   (exists w', ParameterArray.resize 5 w_scalar = (inr tt, w') /\
               length (ParameterArray.values (self w')) = 5%nat /\
               _attached (self w') = false) /\
   (exists w', ParameterArray.assign [3; 4; 5] w_scalar = (inr tt, w') /\
               length (ParameterArray.values (self w')) = 3%nat /\
               _attached (self w') = false)) /\
  (_attached (self w_scalar_cpu) = true /\
   length (ParameterArray.values (self w_scalar_cpu)) = 2%nat /\
   ParameterArray.resize 5 w_scalar_cpu
     = (inl (AttachedImmutableError "param_array"), w_scalar_cpu) /\
   ParameterArray.assign [3; 4; 5] w_scalar_cpu
     = (inl (AttachedImmutableError "param_array"), w_scalar_cpu)).
Proof.
  assert (Hun : _attached (self w_scalar) = false) by (vm_compute; reflexivity).
  assert (Hat : _attached (self w_scalar_cpu) = true) by (vm_compute; reflexivity).
  assert (L0 : length (ParameterArray.values (self w_scalar)) = 2%nat)
    by (vm_compute; reflexivity).
  assert (L1 : length (ParameterArray.values (self w_scalar_cpu)) = 2%nat)
    by (vm_compute; reflexivity).
  split.
  - split; [exact Hun|]. split; [exact L0|]. split.
    + exact (proj1 (proj1 (resize_only_before_attach 5 w_scalar) Hun)).
    + exact (proj2 (proj1 (resize_only_before_attach 3 w_scalar) Hun)
               [3; 4; 5] eq_refl eq_refl).
  - split; [exact Hat|]. split; [exact L1|]. split.
    + exact (proj1 (proj2 (resize_only_before_attach 5 w_scalar_cpu) Hat)).
    + apply (proj2 (proj2 (resize_only_before_attach 3 w_scalar_cpu) Hat)
               [3; 4; 5] eq_refl).
      rewrite L1. discriminate.
Defined.

(** A scalar potential constructed without a parameter array holds the
    empty array; once it is attached, giving it three elements is
    refused. *)
Lemma default_array_fixed_once_attached :
  _attached (self Scenario2.w_scalar_default_cpu) = true /\
  ParameterArray.values (self Scenario2.w_scalar_default_cpu) = [] /\
  ParameterArray.assign [3; 4; 5] Scenario2.w_scalar_default_cpu
    = (inl (AttachedImmutableError "param_array"),
       Scenario2.w_scalar_default_cpu).
Proof.
  assert (Hat : _attached (self Scenario2.w_scalar_default_cpu) = true)
    by (vm_compute; reflexivity).
  assert (Hv : ParameterArray.values (self Scenario2.w_scalar_default_cpu) = [])
    by (vm_compute; reflexivity).
  split; [exact Hat|]. split; [exact Hv|].
  apply assign_attached_other_length; [exact Hat|].
  rewrite Hv. discriminate.
Qed.

(** C5 on the scenario: [None] before attach, the integrator's value at
    time step 7 after. *)
Lemma energy_none_iff_unattached_witness :
  (_attached (self w_scalar) = false /\
   fst (CPPPotentialBase.energy B0 sim_cpu w_scalar) = inr PyNone) /\
  (_attached (self w_scalar_cpu) = true /\
   fst (CPPPotentialBase.energy B0 sim_cpu w_scalar_cpu) = inr (PyFloat 7)).
Proof.
  assert (H0 : _attached (self w_scalar) = false) by (vm_compute; reflexivity).
  assert (H1 : _attached (self w_scalar_cpu) = true) by (vm_compute; reflexivity).
  split; split; try assumption.
  - exact (proj2 (proj1 (energy_none_iff_unattached B0 sim_cpu w_scalar)) H0).
  - exact (proj1 (proj2 (proj2 (energy_none_iff_unattached B0 sim_cpu w_scalar_cpu)))
             H1 eq_refl).
Defined.


(** C8 on the scenario: the union potential before and after attach. *)
Lemma code_constituent_setter_witness :
  (_attached (self w_union_cpu) = true /\
   exists msg, _CPPUnionPotential.set_code_constituent (PyStr "return 2.0f;")
                 w_union_cpu = (inl (AttributeError msg), w_union_cpu)) /\
  (_attached (self w_union) = false /\
   exists w',
     _CPPUnionPotential.set_code_constituent (PyStr "return 2.0f;") w_union
       = (inr tt, w') /\
     _CPPUnionPotential.code_constituent w' = (inr (PyStr "return 2.0f;"), w')).
Proof.
  assert (H0 : _attached (self w_union) = false) by (vm_compute; reflexivity).
  assert (H1 : _attached (self w_union_cpu) = true) by (vm_compute; reflexivity).
  split; split; try assumption.
  - exact (proj1 (code_constituent_setter w_union_cpu (PyStr "return 2.0f;")) H1).
  - destruct (proj2 (code_constituent_setter w_union (PyStr "return 2.0f;")) H0)
      as (w' & E1 & E2 & _).
    exists w'. split; assumption.
Defined.

(** C9 on an array whose second element is the bit pattern of +infinity. *)
Lemma init_rejects_nonfinite_witness :
  isfinite 2139095040 = false /\
  CPPPotential.__init__ 11 (Some "return 0.0f;") (Some [1; 2139095040]) w0
    = (inl (InvalidParameterError "param_array"), w0).
Proof.
  split; [reflexivity|].
  refine (proj1 (proj2 (init_rejects_nonfinite 11 (Some "return 0.0f;")
                          [1; 2139095040] w0 _))).
  exists 2139095040. split; [right; left; reflexivity | reflexivity].
Defined.

(** C10 on the scenario's constructor call. *)
Lemma union_init_leaf_capacity_witness :
  _CPPUnionPotential.__init__ 11 50 (Some "return 1.0f;") (Some "return 0.0f;")
    (Some [1; 2]) w0 = (inr tt, w_constructed) /\
  exists n,
    pd_values (_param_dict (self w_constructed)) !! "leaf_capacity"
      = Some (PyInt n) /\ n = 4 /\ 1 <= n.
Proof.
  assert (H : _CPPUnionPotential.__init__ 11 50 (Some "return 1.0f;")
                (Some "return 0.0f;") (Some [1; 2]) w0 = (inr tt, w_constructed))
    by (vm_compute; reflexivity).
  split; [exact H|].
  exact (union_init_leaf_capacity 11 50 (Some "return 1.0f;")
           (Some "return 0.0f;") (Some [1; 2]) w0 w_constructed H).
Defined.
End Witnesses.

(** * Further properties of the classes *)

(** ** The body inside a generated unit *)

Lemma length_append (a b : string) :
  String.length (a +:+ b) = (String.length a + String.length b)%nat.
Proof.
  induction a as [|c a IH]; [reflexivity|].
  rewrite append_cons. simpl. now rewrite IH.
Qed.

Lemma append_inj_l (a x y : string) : a +:+ x = a +:+ y -> x = y.
Proof.
  induction a as [|c a IH]; [easy|].
  rewrite !append_cons. intros [= H]. auto.
Qed.

Lemma append_inj_r (x y t : string) : x +:+ t = y +:+ t -> x = y.
Proof.
  revert y. induction x as [|c x IH]; intros [|d y] H.
  - reflexivity.
  - apply (f_equal String.length) in H.
    rewrite append_empty_l, append_cons in H. simpl in H.
    rewrite length_append in H. lia.
  - apply (f_equal String.length) in H.
    rewrite append_empty_l, append_cons in H. simpl in H.
    rewrite length_append in H. lia.
  - rewrite !append_cons in H. injection H as -> H. f_equal. auto.
Qed.

Lemma substring_here (b c : string) :
  String.substring 0 (String.length b) (b +:+ c) = b.
Proof.
  induction b as [|x b IH].
  - rewrite append_empty_l. now destruct c.
  - rewrite append_cons. simpl. now rewrite IH.
Qed.

Lemma substring_middle (a b c : string) :
  String.substring (String.length a) (String.length b) (a +:+ b +:+ c) = b.
Proof.
  induction a as [|x a IH].
  - rewrite append_empty_l. apply substring_here.
  - rewrite append_cons. simpl. exact IH.
Qed.

(** X1. The body sits verbatim at a fixed offset of the generated unit and
    can be read back from it; the unit is longer than the body by the
    fixed length of the wrapper; two bodies wrapped for one target give
    the same unit only when they are the same body; and a unit for the CPU
    is never a unit for the GPU. *)
Theorem wrap_embeds_body (p : potential) (code : string) :
  String.substring 846 (String.length code) (Wrapper._wrap_cpu_code p code) = code
  /\ String.substring 857 (String.length code) (Wrapper._wrap_gpu_code p code) = code
  /\ String.length (Wrapper._wrap_cpu_code p code) = (927 + String.length code)%nat
  /\ String.length (Wrapper._wrap_gpu_code p code) = (912 + String.length code)%nat
  /\ (forall code', Wrapper._wrap_cpu_code p code = Wrapper._wrap_cpu_code p code' ->
                    code = code')
  /\ (forall code', Wrapper._wrap_gpu_code p code = Wrapper._wrap_gpu_code p code' ->
                    code = code')
  /\ (forall code', Wrapper._wrap_cpu_code p code <> Wrapper._wrap_gpu_code p code').
Proof.
  unfold Wrapper._wrap_cpu_code, Wrapper._wrap_gpu_code.
  assert (Lc : String.length Wrapper.cpu_head = 846%nat) by (vm_compute; reflexivity).
  assert (Lg : String.length Wrapper.gpu_head = 857%nat) by (vm_compute; reflexivity).
  assert (Tc : String.length Wrapper.cpu_tail = 81%nat) by (vm_compute; reflexivity).
  assert (Tg : String.length Wrapper.gpu_tail = 55%nat) by (vm_compute; reflexivity).
  repeat split.
  - rewrite append_assoc, <- Lc. apply substring_middle.
  - rewrite append_assoc, <- Lg. apply substring_middle.
  - rewrite !length_append, Lc, Tc. lia.
  - rewrite !length_append, Lg, Tg. lia.
  - intros code' H. apply append_inj_r in H. now apply append_inj_l in H.
  - intros code' H. apply append_inj_r in H. now apply append_inj_l in H.
  - intros code' H. apply (f_equal (String.get 34)) in H.
    rewrite !append_assoc in H.
    rewrite <- !(append_correct1 _ _ 34) in H by (rewrite ?Lc, ?Lg; lia).
    vm_compute in H. discriminate.
Qed.

(** ** Relations kept by every step *)

Section Steps.
Context (R : world -> world -> Prop).
Hypothesis R_refl : forall w, R w w.
Hypothesis R_trans : forall w1 w2 w3, R w1 w2 -> R w2 w3 -> R w1 w3.

Lemma steps_bind {A B : Type} (m : M A) (k : A -> M B) :
  steps R m -> (forall a, steps R (k a)) -> steps R (bind m k).
Proof.
  intros Hm Hk w. specialize (Hm w). unfold bind.
  destruct (m w) as [[e|a] w1]; simpl in *; [exact Hm|].
  eapply R_trans; [exact Hm | apply Hk].
Qed.

Lemma steps_ret {A : Type} (a : A) : steps R (ret a).
Proof. intros w. apply R_refl. Qed.

Lemma steps_raise {A : Type} (e : exn) : steps R (@raise A e).
Proof. intros w. apply R_refl. Qed.

Lemma steps_get_self : steps R get_self.
Proof. intros w. apply R_refl. Qed.

Lemma steps_getattr (name : string) : steps R (getattr name).
Proof. intros w. rewrite getattr_run. apply R_refl. Qed.

Lemma steps_as_array (v : pyval) : steps R (as_array v).
Proof. intros w. destruct v; apply R_refl. Qed.

Lemma steps_load (l : loc) : steps R (load l).
Proof. intros w. unfold load. destruct (heap w !! l); apply R_refl. Qed.

Lemma steps_cpp_alpha_iso : steps R cpp_alpha_iso.
Proof.
  apply steps_bind; [apply steps_get_self|]. intros p.
  destruct (_cpp_obj p) as [[]|]; (apply steps_ret || apply steps_raise).
Qed.

Lemma steps_cpp_alpha_union : steps R cpp_alpha_union.
Proof.
  apply steps_bind; [apply steps_get_self|]. intros p.
  destruct (_cpp_obj p) as [[]|]; (apply steps_ret || apply steps_raise).
Qed.
End Steps.

Lemma same_params_refl (w : world) : same_params w w.
Proof. now split. Qed.

Lemma same_params_trans (w1 w2 w3 : world) :
  same_params w1 w2 -> same_params w2 w3 -> same_params w1 w3.
Proof. intros [A1 B1] [A2 B2]. split; congruence. Qed.

Lemma same_host_refl (w : world) : same_host w w.
Proof. repeat split. Qed.

Lemma same_host_trans (w1 w2 w3 : world) :
  same_host w1 w2 -> same_host w2 w3 -> same_host w1 w3.
Proof.
  intros (P1 & I1 & H1) (P2 & I2 & H2).
  repeat split; try congruence; eapply same_params_trans; eauto.
Qed.

Lemma same_host_params {A : Type} (m : M A) :
  steps same_host m -> steps same_params m.
Proof. intros H w. apply H. Qed.

Lemma host_call_wrap (t : device_kind) (c : pyval) : steps same_host (call_wrap t c).
Proof. intros w. destruct c; repeat split. Qed.

Lemma host_jit_new_scalar (B : backend) (req : jit_request) :
  is_union_request req = false -> steps same_host (jit_new B req).
Proof.
  intros Hu w. unfold jit_new, bind, emit, ret, raise. simpl.
  destruct (jit_compile B req); [repeat split|]. rewrite Hu. repeat split.
Qed.

Lemma params_jit_new (B : backend) (req : jit_request) :
  steps same_params (jit_new B req).
Proof.
  intros w. unfold jit_new, bind, emit, alloc, ret, raise. simpl.
  destruct (jit_compile B req); [repeat split|].
  destruct (is_union_request req); repeat split.
Qed.

Lemma host_set_cpp_obj (o : cpp_obj) :
  steps same_host (p <- get_self ;; put_self (set_cpp_obj (Some o) p)).
Proof. intros w. repeat split. Qed.

Lemma host_super_attach : steps same_host super_attach.
Proof.
  intros w. unfold super_attach, bind, get_self, emit, ret.
  destruct (_cpp_obj (self w)); repeat split.
Qed.

Lemma params_setattr_inst (name : string) (v : pyval) :
  steps same_params (setattr_inst name v).
Proof. intros w. repeat split. Qed.

Lemma params_slice_assign (dst src : loc) : steps same_params (slice_assign dst src).
Proof.
  intros w. unfold slice_assign, bind, load, store, raise.
  destruct (heap w !! src); [|repeat split]. simpl.
  destruct (heap w !! dst); [|repeat split].
  destruct (broadcast _ _); repeat split.
Qed.

(** X2. Whatever the outcome of [_attach], the parameters of the object
    (cutoffs, code, parameter array, leaf capacity, per-type parameters)
    are exactly as before; the scalar [_attach] also leaves the instance
    attributes and every array of the store as they were. *)
Theorem attach_keeps_parameters (B : backend) (sim : simulation) (w : world) :
  same_host w (snd (CPPPotential._attach B sim w)) /\
  same_params w (snd (_CPPUnionPotential._attach B sim w)).
Proof.
  split.
  - revert w. change (steps same_host (CPPPotential._attach B sim)).
    pose proof same_host_refl as Rr. pose proof same_host_trans as Rt.
    unfold CPPPotential._attach.
    destruct (negb _); [apply (steps_raise _ Rr)|].
    destruct (negb _); [apply (steps_raise _ Rr)|].
    apply (steps_bind _ Rt); [apply (steps_getattr _ Rr)|]. intros c.
    apply (steps_bind _ Rt); [apply host_call_wrap|]. intros s.
    apply (steps_bind _ Rt).
    + destruct (sim_device sim).
      * do 2 (apply (steps_bind _ Rt); [apply (steps_getattr _ Rr)|]; intros ?).
        now apply host_jit_new_scalar.
      * cbv zeta.
        apply (steps_bind _ Rt); [apply (steps_getattr _ Rr)|]. intros c'.
        apply (steps_bind _ Rt); [apply host_call_wrap|]. intros s'.
        do 2 (apply (steps_bind _ Rt); [apply (steps_getattr _ Rr)|]; intros ?).
        now apply host_jit_new_scalar.
    + intros o.
      change (steps same_host
                ((p <- get_self ;; put_self (set_cpp_obj (Some o) p)) ;; super_attach)).
      apply (steps_bind _ Rt); [apply host_set_cpp_obj|].
      intros _. apply host_super_attach.
  - revert w. change (steps same_params (_CPPUnionPotential._attach B sim)).
    pose proof same_params_refl as Rr. pose proof same_params_trans as Rt.
    unfold _CPPUnionPotential._attach.
    destruct (negb _); [apply (steps_raise _ Rr)|].
    destruct (negb _); [apply (steps_raise _ Rr)|].
    do 2 (apply (steps_bind _ Rt); [apply (steps_getattr _ Rr)|]; intros ?;
          apply (steps_bind _ Rt); [apply same_host_params, host_call_wrap|]; intros ?).
    apply (steps_bind _ Rt).
    + destruct (sim_device sim).
      * do 3 (apply (steps_bind _ Rt); [apply (steps_getattr _ Rr)|]; intros ?).
        apply params_jit_new.
      * cbv zeta.
        apply (steps_bind _ Rt); [apply (steps_getattr _ Rr)|]. intros c'.
        apply (steps_bind _ Rt); [apply same_host_params, host_call_wrap|]. intros s'.
        do 4 (apply (steps_bind _ Rt); [apply (steps_getattr _ Rr)|]; intros ?).
        apply params_jit_new.
    + intros o.
      change (steps same_params
                ((p <- get_self ;; put_self (set_cpp_obj (Some o) p)) ;;
                 host <- getattr "alpha_iso" ;;
                 src <- as_array host ;;
                 dst <- cpp_alpha_iso ;;
                 slice_assign dst src ;;
                 host <- getattr "alpha_union" ;;
                 src <- as_array host ;;
                 dst <- cpp_alpha_union ;;
                 slice_assign dst src ;;
                 buf <- cpp_alpha_iso ;;
                 setattr_inst "alpha_iso" (PyRef buf) ;;
                 buf <- cpp_alpha_union ;;
                 setattr_inst "alpha_union" (PyRef buf) ;;
                 super_attach)).
      apply (steps_bind _ Rt); [apply same_host_params, host_set_cpp_obj|]. intros _.
      do 12 (apply (steps_bind _ Rt);
             [ first [ apply (steps_getattr _ Rr) | apply (steps_as_array _ Rr)
                     | apply (steps_cpp_alpha_iso _ Rr Rt) | apply (steps_cpp_alpha_union _ Rr Rt)
                     | apply params_slice_assign | apply params_setattr_inst ]
             | intros ? ]).
      apply same_host_params, host_super_attach.
Qed.

(** ** A rejected compilation *)

Lemma untouched_refl (w : world) : untouched w w.
Proof. repeat split. Qed.

Lemma untouched_trans (w1 w2 w3 : world) :
  untouched w1 w2 -> untouched w2 w3 -> untouched w1 w3.
Proof. intros (A1 & B1 & C1) (A2 & B2 & C2). repeat split; congruence. Qed.

Section CompilationFailure.
Context {A B : Type}.

Lemma bind_inl (m : M A) (k : A -> M B) (w w' : world) (e : exn) :
  bind m k w = (inl e, w') ->
  m w = (inl e, w') \/ exists a w1, m w = (inr a, w1) /\ k a w1 = (inl e, w').
Proof.
  unfold bind. destruct (m w) as [[e1|a] w1]; intros H.
  - left. injection H as <- <-. reflexivity.
  - right. now exists a, w1.
Qed.

Lemma keeps_bind (m : M A) (k : A -> M B) :
  keeps m -> (forall a, keeps (k a)) -> keeps (bind m k).
Proof.
  intros Hm Hk w b w' H. apply bind_inr in H as (a & w1 & H1 & H2).
  eapply untouched_trans; [eapply Hm | eapply Hk]; eauto.
Qed.

Lemma no_cf_bind (m : M A) (k : A -> M B) :
  no_cf m -> (forall a, no_cf (k a)) -> no_cf (bind m k).
Proof.
  intros Hm Hk w e w' H. apply bind_inl in H as [H|(a & w1 & _ & H)].
  - eapply Hm; eauto.
  - eapply Hk; eauto.
Qed.

Lemma cf_clean_of_no_cf (m : M A) : no_cf m -> cf_clean m.
Proof. intros H w d w' E. exfalso. exact (H w _ w' E d eq_refl). Qed.

(** Up to a step that returns without touching the object, a failure
    later on is the failure of the whole. *)
Lemma cf_bind_keep (m : M A) (k : A -> M B) :
  keeps m -> no_cf m -> (forall a, cf_clean (k a)) -> cf_clean (bind m k).
Proof.
  intros Hk Hn Hc w d w' H. apply bind_inl in H as [H|(a & w1 & H1 & H2)].
  - exfalso. exact (Hn w _ w' H d eq_refl).
  - eapply untouched_trans; [eapply Hk | eapply Hc]; eauto.
Qed.

(** After the last step that can raise [CompilationFailed]. *)
Lemma cf_bind_last (m : M A) (k : A -> M B) :
  cf_clean m -> (forall a, no_cf (k a)) -> cf_clean (bind m k).
Proof.
  intros Hc Hn w d w' H. apply bind_inl in H as [H|(a & w1 & _ & H)].
  - eapply Hc; eauto.
  - exfalso. exact (Hn a w1 _ w' H d eq_refl).
Qed.
End CompilationFailure.

Lemma keeps_getattr (name : string) : keeps (getattr name).
Proof.
  intros w a w' H. rewrite getattr_run in H. injection H as _ <-.
  apply untouched_refl.
Qed.

Lemma no_cf_getattr (name : string) : no_cf (getattr name).
Proof.
  intros w e w' H d. rewrite getattr_run in H.
  destruct (inst_dict (self w) !! name); [discriminate|].
  destruct (pd_values (_param_dict (self w)) !! name); [discriminate|].
  injection H as <- _. discriminate.
Qed.

Lemma keeps_call_wrap (t : device_kind) (c : pyval) : keeps (call_wrap t c).
Proof. intros w a w' H. apply call_wrap_inv in H as ->. repeat split. Qed.

Lemma no_cf_call_wrap (t : device_kind) (c : pyval) : no_cf (call_wrap t c).
Proof.
  intros w e w' H d. destruct c; cbv in H; try discriminate;
    injection H as <- _; discriminate.
Qed.

Lemma cf_clean_jit_new (B : backend) (req : jit_request) : cf_clean (jit_new B req).
Proof.
  intros w d w'. unfold jit_new, bind, emit, alloc, ret, raise. simpl.
  destruct (jit_compile B req).
  - intros [= _ <-]. repeat split.
  - destruct (is_union_request req); discriminate.
Qed.

Lemma no_cf_as_array (v : pyval) : no_cf (as_array v).
Proof. intros w e w' H d. destruct v; cbv in H; try discriminate;
         injection H as <- _; discriminate. Qed.

Lemma no_cf_cpp_alpha_iso : no_cf cpp_alpha_iso.
Proof.
  intros w e w' H d. unfold cpp_alpha_iso, bind, get_self, ret, raise in H.
  destruct (_cpp_obj (self w)) as [[]|]; try discriminate;
    injection H as <- _; discriminate.
Qed.

Lemma no_cf_cpp_alpha_union : no_cf cpp_alpha_union.
Proof.
  intros w e w' H d. unfold cpp_alpha_union, bind, get_self, ret, raise in H.
  destruct (_cpp_obj (self w)) as [[]|]; try discriminate;
    injection H as <- _; discriminate.
Qed.

Lemma no_cf_slice_assign (dst src : loc) : no_cf (slice_assign dst src).
Proof.
  intros w e w' H d. unfold slice_assign, bind, load, store, raise in H.
  destruct (heap w !! src); [|injection H as <- _; discriminate]. simpl in H.
  destruct (heap w !! dst); [|injection H as <- _; discriminate].
  destruct (broadcast _ _); [discriminate|]. injection H as <- _; discriminate.
Qed.

Lemma no_cf_setattr_inst (name : string) (v : pyval) : no_cf (setattr_inst name v).
Proof. intros w e w' H d. discriminate H. Qed.

Lemma no_cf_set_cpp_obj (o : cpp_obj) :
  no_cf (p <- get_self ;; put_self (set_cpp_obj (Some o) p)).
Proof. intros w e w' H d. discriminate H. Qed.

Lemma no_cf_super_attach : no_cf super_attach.
Proof.
  intros w e w' H d. unfold super_attach, bind, get_self, emit, ret in H.
  destruct (_cpp_obj (self w)); discriminate.
Qed.

Lemma no_cf_runtime_error {A : Type} (msg : string) :
  no_cf (@raise A (RuntimeError msg)).
Proof. intros w e w' [= <- _] d. discriminate. Qed.

(** X3. When [_attach], of the scalar or of the union potential, fails
    because the compiler rejected the source, the object, the store and the
    integrator are exactly as they were before the call: no evaluator was
    stored and no buffer allocated.  The potential can be given another
    body and attached again. *)
Theorem rejected_compilation_changes_nothing (B : backend) (sim : simulation)
    (w w' : world) (d : string) :
  (CPPPotential._attach B sim w = (inl (CompilationFailed d), w') ->
     untouched w w')
  /\ (_CPPUnionPotential._attach B sim w = (inl (CompilationFailed d), w') ->
     untouched w w').
Proof.
  split.
  - revert w d w'. change (cf_clean (CPPPotential._attach B sim)).
    unfold CPPPotential._attach.
    destruct (negb _); [apply cf_clean_of_no_cf, no_cf_runtime_error|].
    destruct (negb _); [apply cf_clean_of_no_cf, no_cf_runtime_error|].
    apply cf_bind_keep; [apply keeps_getattr | apply no_cf_getattr | intros c].
    apply cf_bind_keep; [apply keeps_call_wrap | apply no_cf_call_wrap | intros s].
    apply cf_bind_last.
    + destruct (sim_device sim).
      * do 2 (apply cf_bind_keep;
              [apply keeps_getattr | apply no_cf_getattr | intros ?]).
        apply cf_clean_jit_new.
      * cbv zeta.
        apply cf_bind_keep; [apply keeps_getattr | apply no_cf_getattr | intros c'].
        apply cf_bind_keep; [apply keeps_call_wrap | apply no_cf_call_wrap | intros s'].
        do 2 (apply cf_bind_keep;
              [apply keeps_getattr | apply no_cf_getattr | intros ?]).
        apply cf_clean_jit_new.
    + intros o.
      change (no_cf ((p <- get_self ;; put_self (set_cpp_obj (Some o) p)) ;;
                     super_attach)).
      apply no_cf_bind; [apply no_cf_set_cpp_obj | intros _; apply no_cf_super_attach].
  - revert w d w'. change (cf_clean (_CPPUnionPotential._attach B sim)).
    unfold _CPPUnionPotential._attach.
    destruct (negb _); [apply cf_clean_of_no_cf, no_cf_runtime_error|].
    destruct (negb _); [apply cf_clean_of_no_cf, no_cf_runtime_error|].
    do 2 (apply cf_bind_keep; [apply keeps_getattr | apply no_cf_getattr | intros ?];
          apply cf_bind_keep; [apply keeps_call_wrap | apply no_cf_call_wrap | intros ?]).
    apply cf_bind_last.
    + destruct (sim_device sim).
      * do 3 (apply cf_bind_keep;
              [apply keeps_getattr | apply no_cf_getattr | intros ?]).
        apply cf_clean_jit_new.
      * cbv zeta.
        apply cf_bind_keep; [apply keeps_getattr | apply no_cf_getattr | intros c'].
        apply cf_bind_keep; [apply keeps_call_wrap | apply no_cf_call_wrap | intros s'].
        do 4 (apply cf_bind_keep;
              [apply keeps_getattr | apply no_cf_getattr | intros ?]).
        apply cf_clean_jit_new.
    + intros o.
      change (no_cf
                ((p <- get_self ;; put_self (set_cpp_obj (Some o) p)) ;;
                 host <- getattr "alpha_iso" ;;
                 src <- as_array host ;;
                 dst <- cpp_alpha_iso ;;
                 slice_assign dst src ;;
                 host <- getattr "alpha_union" ;;
                 src <- as_array host ;;
                 dst <- cpp_alpha_union ;;
                 slice_assign dst src ;;
                 buf <- cpp_alpha_iso ;;
                 setattr_inst "alpha_iso" (PyRef buf) ;;
                 buf <- cpp_alpha_union ;;
                 setattr_inst "alpha_union" (PyRef buf) ;;
                 super_attach)).
      apply no_cf_bind; [apply no_cf_set_cpp_obj | intros _].
      do 12 (apply no_cf_bind;
             [ first [ apply no_cf_getattr | apply no_cf_as_array
                     | apply no_cf_cpp_alpha_iso | apply no_cf_cpp_alpha_union
                     | apply no_cf_slice_assign | apply no_cf_setattr_inst ]
             | intros ? ]).
      apply no_cf_super_attach.
Qed.

(** ** A successful [_attach] *)

Lemma call_wrap_inv_str (t : device_kind) (c : pyval) (w w' : world) (s : string) :
  call_wrap t c w = (inr s, w') ->
  exists body,
    c = PyStr body /\
    s = match t with
        | CPU => Wrapper._wrap_cpu_code (self w) body
        | GPU => Wrapper._wrap_gpu_code (self w) body
        end /\
    w' = World (self w) (heap w) (calls w ++ [EvWrap t (PyStr body)])
               (integrator_patch w).
Proof.
  destruct c; intros H; try discriminate H.
  rewrite call_wrap_str in H. injection H as <- <-. eauto.
Qed.

Lemma jit_new_scalar_inv (B : backend) (req : jit_request) (w w' : world)
    (o : cpp_obj) :
  is_union_request req = false ->
  jit_new B req w = (inr o, w') ->
  o = PatchEnergy req /\ jit_compile B req = None /\
  w' = World (self w) (heap w) (calls w ++ [EvCompile req]) (integrator_patch w).
Proof.
  intros Hu. unfold jit_new, bind, emit, ret, raise. simpl.
  destruct (jit_compile B req); [discriminate|]. rewrite Hu.
  intros [= <- <-]. repeat split.
Qed.

Lemma ready_integrator (sim : simulation) :
  isinstance_hpmc (sim_integrator sim) = true ->
  integrator_attached (sim_integrator sim) = true ->
  sim_integrator sim = HPMCIntegrator true.
Proof. destruct (sim_integrator sim) as [|a|a]; simpl; congruence. Qed.

Lemma super_attach_calls (w w' : world) :
  super_attach w = (inr tt, w') ->
  exists evs, calls w' = calls w ++ evs /\ wraps evs = [] /\ compiles evs = [].
Proof.
  unfold super_attach, bind, get_self, emit, ret.
  destruct (_cpp_obj (self w)) as [o|]; intros [= <-]; simpl.
  - now exists [EvInstall o].
  - exists []. now rewrite app_nil_r.
Qed.

(** The evaluator a successful scalar [_attach] leaves in the object. *)
Lemma scalar_attach_success_state (B : backend) (sim : simulation) (w w' : world) :
  CPPPotential._attach B sim w = (inr tt, w') ->
  exists o : cpp_obj,
    sim_integrator sim = HPMCIntegrator true /\
    _cpp_obj (self w') = Some o.
Proof.
  intros H. unfold CPPPotential._attach in H.
  destruct (isinstance_hpmc (sim_integrator sim)) eqn:Hk; [|discriminate].
  destruct (integrator_attached (sim_integrator sim)) eqn:Ha; [|discriminate].
  simpl in H.
  apply bind_inr in H as (c & w1 & _ & H).
  apply bind_inr in H as (s & w2 & _ & H).
  apply bind_inr in H as (o & w3 & _ & H).
  apply bind_inr in H as (p & w4 & Hp & H). injection Hp as <- <-.
  apply bind_inr in H as ([] & w5 & H5 & H). injection H5 as <-.
  apply super_attach_inv in H as [Hs _].
  exists o. split; [now apply ready_integrator|]. now rewrite Hs.
Qed.

(** X4. When the scalar [_attach] returns, the integrator was an attached
    HPMC integrator, the body, the cutoff and the parameter array were
    read from the object, the compiler accepted the one request built
    from them (the body wrapped for the CPU and, on a GPU, for the GPU as
    well), and the object holds the evaluator compiled from that request;
    nothing else of the object and nothing of the store changed. *)
Theorem scalar_attach_success (B : backend) (sim : simulation) (w w' : world) :
  CPPPotential._attach B sim w = (inr tt, w') ->
  exists (code : string) (r_cut param_array : pyval) (evs : list event),
    let req := scalar_request B (self w) (sim_device sim) code r_cut param_array in
    sim_integrator sim = HPMCIntegrator true /\
    fst (getattr "code" w) = inr (PyStr code) /\
    fst (getattr "r_cut" w) = inr r_cut /\
    fst (getattr "param_array" w) = inr param_array /\
    jit_compile B req = None /\
    self w' = set_cpp_obj (Some (PatchEnergy req)) (self w) /\
    heap w' = heap w /\
    calls w' = calls w ++ evs /\
    wraps evs = EvWrap CPU (PyStr code) ::
                match sim_device sim with
                | GPU => [EvWrap GPU (PyStr code)]
                | CPU => []
                end /\
    compiles evs = [req].
Proof.
  intros H. unfold CPPPotential._attach in H.
  destruct (isinstance_hpmc (sim_integrator sim)) eqn:Hk; [|discriminate].
  destruct (integrator_attached (sim_integrator sim)) eqn:Ha; [|discriminate].
  simpl in H.
  apply bind_inr in H as (c & w1 & H1 & H). apply getattr_inv in H1 as [-> Hc].
  apply bind_inr in H as (s & w1 & H1 & H).
  apply call_wrap_inv_str in H1 as (code & -> & -> & ->).
  apply bind_inr in H as (o & w2 & Ho & H).
  apply bind_inr in H as (p & w3 & Hp & H). injection Hp as <- <-.
  apply bind_inr in H as ([] & w4 & H4 & H). injection H4 as <-.
  apply super_attach_inv in H as Hs. destruct Hs as [Hs Hh].
  apply super_attach_calls in H as (e3 & Hc3 & Hw3 & Hm3). simpl in *.
  destruct (sim_device sim).
  - apply bind_inr in Ho as (r & w5 & H5 & Ho). apply getattr_inv in H5 as [-> Hr].
    apply bind_inr in Ho as (pa & w5 & H5 & Ho). apply getattr_inv in H5 as [-> Hpa].
    apply jit_new_scalar_inv in Ho as (-> & Hj & ->); [|reflexivity].
    simpl in *.
    exists code, r, pa,
      ([EvWrap CPU (PyStr code)]
         ++ [EvCompile (scalar_request B (self w) CPU code r pa)] ++ e3).
    assert (Hr' : fst (getattr "r_cut" w) = inr r)
      by (rewrite <- Hr; apply getattr_same_dicts; reflexivity).
    assert (Hpa' : fst (getattr "param_array" w) = inr pa)
      by (rewrite <- Hpa; apply getattr_same_dicts; reflexivity).
    cbv zeta. simpl scalar_request.
    split; [now apply ready_integrator|].
    do 6 (split; [assumption|]).
    split; [rewrite Hc3; now rewrite <- !app_assoc|].
    split; [unfold wraps in *; simpl; now rewrite Hw3|].
    unfold compiles in *. simpl. now rewrite Hm3.
  - cbv zeta in Ho.
    apply bind_inr in Ho as (c' & w5 & H5 & Ho). apply getattr_inv in H5 as [-> Hc'].
    apply bind_inr in Ho as (s' & w5 & H5 & Ho).
    apply call_wrap_inv_str in H5 as (code' & -> & -> & ->).
    assert (code' = code) as ->.
    { assert (E : fst (getattr "code" w) = inr (PyStr code')).
      { rewrite <- Hc'. apply getattr_same_dicts; reflexivity. }
      congruence. }
    apply bind_inr in Ho as (r & w5 & H5 & Ho). apply getattr_inv in H5 as [-> Hr].
    apply bind_inr in Ho as (pa & w5 & H5 & Ho). apply getattr_inv in H5 as [-> Hpa].
    apply jit_new_scalar_inv in Ho as (-> & Hj & ->); [|reflexivity].
    simpl in *.
    exists code, r, pa,
      ([EvWrap CPU (PyStr code)] ++ [EvWrap GPU (PyStr code)]
         ++ [EvCompile (scalar_request B (self w) GPU code r pa)] ++ e3).
    assert (Hr' : fst (getattr "r_cut" w) = inr r)
      by (rewrite <- Hr; apply getattr_same_dicts; reflexivity).
    assert (Hpa' : fst (getattr "param_array" w) = inr pa)
      by (rewrite <- Hpa; apply getattr_same_dicts; reflexivity).
    cbv zeta. simpl scalar_request.
    split; [now apply ready_integrator|].
    do 6 (split; [assumption|]).
    split; [rewrite Hc3; now rewrite <- !app_assoc|].
    split; [unfold wraps in *; simpl; now rewrite Hw3|].
    unfold compiles in *. simpl. now rewrite Hm3.
Qed.

(** The state a successful union [_attach] ends in. *)
Lemma union_attach_inv (B : backend) (sim : simulation) (w w' : world) :
  _CPPUnionPotential._attach B sim w = (inr tt, w') ->
  exists (req : jit_request) (h_iso h_union : loc) (d_iso d_union : list float32),
    sim_integrator sim = HPMCIntegrator true /\
    fst (getattr "alpha_iso" w) = inr (PyRef h_iso) /\
    fst (getattr "alpha_union" w) = inr (PyRef h_union) /\
    self w' =
      set_inst_dict
        (<["alpha_union" := PyRef (S (length (heap w)))]>
           (<["alpha_iso" := PyRef (length (heap w))]> (inst_dict (self w))))
        (set_cpp_obj
           (Some (PatchEnergyUnion req (length (heap w)) (S (length (heap w)))))
           (self w)) /\
    heap w' =
      <[S (length (heap w)) := d_union]>
        (<[length (heap w) := d_iso]>
           (heap w ++ [fst (engine_buffers B req); snd (engine_buffers B req)])).
Proof.
  intros H. unfold _CPPUnionPotential._attach in H.
  destruct (isinstance_hpmc (sim_integrator sim)) eqn:Hk; [|discriminate].
  destruct (integrator_attached (sim_integrator sim)) eqn:Ha; [|discriminate].
  simpl in H.
  apply bind_inr in H as (c1 & w1 & H1 & H). apply getattr_inv in H1 as [-> _].
  apply bind_inr in H as (s1 & w1 & H1 & H). apply call_wrap_inv in H1 as ->.
  apply bind_inr in H as (c2 & w2 & H2 & H). apply getattr_inv in H2 as [-> _].
  apply bind_inr in H as (s2 & w2 & H2 & H). apply call_wrap_inv in H2 as ->.
  apply bind_inr in H as (o & w3 & Ho & H).
  apply union_build_inv in Ho as (req & -> & Hs3 & Hh3). simpl in Hs3, Hh3.
  apply bind_inr in H as (p & w4 & Hp & H). injection Hp as <- <-.
  apply bind_inr in H as ([] & w5 & H5 & H). injection H5 as <-.
  set (N := length (heap w)) in *.
  apply bind_inr in H as (host1 & w6 & H6 & H). apply getattr_inv in H6 as [-> Hg1].
  apply bind_inr in H as (h_iso & w6 & H6 & H). apply as_array_inv in H6 as [-> ->].
  apply bind_inr in H as (dst1 & w6 & H6 & H).
  unfold cpp_alpha_iso, bind, get_self in H6. simpl in H6. injection H6 as <- <-.
  apply bind_inr in H as ([] & w7 & H7 & H).
  apply slice_assign_inv in H7 as (v_iso & d1 & d_iso & _ & _ & _ & Hs7 & Hh7).
  simpl in Hs7, Hh7.
  apply bind_inr in H as (host2 & w8 & H8 & H). apply getattr_inv in H8 as [-> Hg2].
  apply bind_inr in H as (h_union & w8 & H8 & H). apply as_array_inv in H8 as [-> ->].
  apply bind_inr in H as (dst2 & w8 & H8 & H).
  unfold cpp_alpha_union, bind, get_self in H8. rewrite Hs7 in H8. simpl in H8.
  injection H8 as <- <-.
  apply bind_inr in H as ([] & w9 & H9 & H).
  apply slice_assign_inv in H9 as (v_union & d2 & d_union & _ & _ & _ & Hs9 & Hh9).
  apply bind_inr in H as (buf1 & w10 & H10 & H).
  unfold cpp_alpha_iso, bind, get_self in H10. rewrite Hs9, Hs7 in H10. simpl in H10.
  injection H10 as <- <-.
  apply bind_inr in H as ([] & w11 & H11 & H).
  unfold setattr_inst, bind, get_self, put_self in H11. injection H11 as <-.
  apply bind_inr in H as (buf2 & w12 & H12 & H).
  unfold cpp_alpha_union, bind, get_self in H12. simpl in H12.
  rewrite Hs9, Hs7 in H12. simpl in H12. injection H12 as <- <-.
  apply bind_inr in H as ([] & w13 & H13 & H).
  unfold setattr_inst, bind, get_self, put_self in H13. simpl in H13.
  injection H13 as <-.
  apply super_attach_inv in H as [Hs' Hh']. simpl in Hs', Hh'.
  exists req, h_iso, h_union, d_iso, d_union.
  split; [now apply ready_integrator|].
  split; [rewrite <- Hg1; apply getattr_same_dicts; simpl; now rewrite Hs3|].
  split; [rewrite <- Hg2; apply getattr_same_dicts; rewrite Hs7; simpl; now rewrite Hs3|].
  split.
  - rewrite Hs', Hs3. reflexivity.
  - rewrite Hh', Hh9, Hh7, Hh3. reflexivity.
Qed.

(** X5. A successful [_attach] of the union potential adds exactly two
    arrays to the store and writes to no array that was there before: the
    arrays the host held, the sources of the copies, keep their values.
    Of the instance attributes only [alpha_iso] and [alpha_union] are
    rebound. *)
Theorem union_attach_spares_host_arrays (B : backend) (sim : simulation)
    (w w' : world) :
  _CPPUnionPotential._attach B sim w = (inr tt, w') ->
  length (heap w') = (length (heap w) + 2)%nat
  /\ (forall l : loc, (l < length (heap w))%nat -> heap w' !! l = heap w !! l)
  /\ (forall name : string,
        name <> "alpha_iso" -> name <> "alpha_union" ->
        inst_dict (self w') !! name = inst_dict (self w) !! name).
Proof.
  intros H. apply union_attach_inv in H
    as (req & h1 & h2 & d1 & d2 & _ & _ & _ & Hs & Hh).
  rewrite Hs, Hh. repeat split.
  - rewrite !length_insert, length_app. reflexivity.
  - intros l Hl.
    rewrite !list_lookup_insert_ne by lia.
    now apply lookup_app_l.
  - intros name N1 N2. simpl.
    now rewrite !lookup_insert_ne by congruence.
Qed.

(** X6. After a successful [_attach], of the scalar or of the union
    potential, the energy query answers with the integrator's
    [computePatchEnergy] at the current time step, never with [None]. *)
Theorem energy_after_attach (B : backend) (sim : simulation) (w w' : world) :
  CPPPotential._attach B sim w = (inr tt, w') \/
  _CPPUnionPotential._attach B sim w = (inr tt, w') ->
  CPPPotentialBase.energy B sim w' =
    (inr (PyFloat (computePatchEnergy B (sim_timestep sim))), w').
Proof.
  intros [H|H].
  - apply scalar_attach_success_state in H as (o & Hi & Hs).
    unfold CPPPotentialBase.energy, bind, get_self, _attached.
    now rewrite Hs, Hi.
  - apply union_attach_inv in H as (req & h1 & h2 & d1 & d2 & Hi & _ & _ & Hs & _).
    unfold CPPPotentialBase.energy, bind, get_self, _attached.
    now rewrite Hs, Hi.
Qed.

(** ** What the constructors store *)

(** The local dictionary [CPPPotentialBase.__init__] has filled when it
    updates the object. *)
Lemma base_init_state (r_cut : pyfloat) (code : option string)
    (pa : option (list float32)) (w0 w : world) :
  CPPPotentialBase.__init__ r_cut code pa w0 = (inr tt, w) ->
  exists vs : gmap string nat,
    w = World
          (set_param_dict
             (pd_update
                (MkParameterDict
                   (<["param_array" := PyArray (default [] pa)]>
                      (<["code" := py_code code]>
                         (<["r_cut" := PyFloat r_cut]> ∅)))
                   vs)
                (_param_dict (self w0)))
             (self w0))
          (heap w0) (calls w0) (integrator_patch w0).
Proof.
  unfold CPPPotentialBase.__init__. destruct pa as [a|].
  - rewrite pd_setitem_free by (simpl; now rewrite lookup_insert_ne).
    simpl. unfold bind at 1. simpl.
    rewrite pd_setitem_free by (simpl; now rewrite lookup_insert_ne).
    simpl. unfold bind at 1. simpl.
    unfold pd_setitem. simpl. rewrite lookup_insert_eq.
    unfold nd_validate. rewrite Nat.eqb_refl. simpl.
    destruct (forallb isfinite a); [|discriminate].
    unfold bind, get_self, put_self. simpl. intros [= <-]. eauto.
  - rewrite pd_setitem_free by reflexivity.
    simpl. unfold bind at 1. simpl.
    rewrite pd_setitem_free by reflexivity.
    simpl. unfold bind at 1. simpl.
    rewrite pd_setitem_free by reflexivity.
    unfold bind, get_self, put_self. simpl. intros [= <-]. eauto.
Qed.

Lemma getattr_param (name : string) (v : pyval) (w : world) :
  inst_dict (self w) !! name = None ->
  pd_values (_param_dict (self w)) !! name = Some v ->
  fst (getattr name w) = inr v.
Proof. intros E1 E2. now rewrite getattr_run, E1, E2. Qed.

(** X7. The constructor of the scalar potential stores what it is given:
    on the new object the cutoff, the body and the parameter array read
    back as passed, an omitted parameter array reads back as the empty
    array, the object is not attached, and the store is as it was. *)
Theorem scalar_init_round_trip (r_cut : pyfloat) (code : option string)
    (pa : option (list float32))
    (h : list (list float32)) (c : list event) (ip : option cpp_obj) (w : world) :
  CPPPotential.__init__ r_cut code pa (World new_object h c ip) = (inr tt, w) ->
  fst (getattr "r_cut" w) = inr (PyFloat r_cut) /\
  fst (getattr "code" w) = inr (py_code code) /\
  fst (getattr "param_array" w) = inr (PyArray (default [] pa)) /\
  _attached (self w) = false /\
  heap w = h /\ calls w = c.
Proof.
  intros H. unfold CPPPotential.__init__ in H.
  apply base_init_state in H as (vs & ->).
  split; [|split; [|split; [|now repeat split]]].
  - apply getattr_param; [reflexivity|]. simpl.
    apply lookup_union_Some_l.
    rewrite lookup_insert_ne by discriminate.
    rewrite lookup_insert_ne by discriminate.
    apply lookup_insert_eq.
  - apply getattr_param; [reflexivity|]. simpl.
    apply lookup_union_Some_l.
    rewrite lookup_insert_ne by discriminate.
    apply lookup_insert_eq.
  - apply getattr_param; [reflexivity|]. simpl.
    apply lookup_union_Some_l, lookup_insert_eq.
Qed.

(** The object the union constructor leaves. *)
Lemma union_init_state (r_cut_constituent r_cut_isotropic : pyfloat)
    (code_constituent code_isotropic : option string)
    (pa : option (list float32))
    (h : list (list float32)) (c : list event) (ip : option cpp_obj) (w : world) :
  _CPPUnionPotential.__init__ r_cut_constituent r_cut_isotropic
    code_constituent code_isotropic pa (World new_object h c ip) = (inr tt, w) ->
  inst_dict (self w) =
    <["_code_isotropic" := py_code code_isotropic]>
      (<["_code_constituent" := py_code code_constituent]> ∅) /\
  (forall k v,
      pd_values (_param_dict (self w)) !! k = Some v ->
      k ∈ [ "param_array"; "r_cut_constituent"; "r_cut_isotropic";
            "leaf_capacity"; "code"; "r_cut" ]) /\
  pd_values (_param_dict (self w)) !! "r_cut_constituent"
    = Some (PyFloat r_cut_constituent) /\
  pd_values (_param_dict (self w)) !! "r_cut_isotropic"
    = Some (PyFloat r_cut_isotropic) /\
  pd_values (_param_dict (self w)) !! "r_cut" = Some (PyFloat r_cut_isotropic) /\
  pd_values (_param_dict (self w)) !! "code" = Some (py_code code_isotropic) /\
  (forall a, pa = Some a ->
     pd_values (_param_dict (self w)) !! "param_array" = Some (PyArray a)) /\
  _typeparam_dict (self w) =
    list_to_map [ ("positions", TpTuple); ("orientations", TpTuple);
                  ("diameters", TpFloat); ("charges", TpFloat);
                  ("typeids", TpInt) ] ∪ ∅ /\
  _cpp_obj (self w) = None /\ heap w = h /\ calls w = c.
Proof.
  intros H. unfold _CPPUnionPotential.__init__ in H.
  apply bind_inr in H as ([] & w1 & H1 & H).
  apply base_init_state in H1 as (vs & ->).
  apply bind_inr in H as (p & w2 & Hp & H). injection Hp as <- <-.
  apply bind_inr in H as ([] & w3 & H3 & H). injection H3 as <-.
  apply bind_inr in H as ([] & w4 & H4 & H).
  apply bind_inr in H as ([] & w5 & H5 & H).
  apply bind_inr in H as ([] & w6 & H6 & H).
  apply setattr_param_inv in H as (pd' & -> & Hother & Hsame).
  unfold _CPPUnionPotential._extend_typeparam, setattr_inst, bind, get_self,
    put_self in H4, H5, H6.
  injection H4 as <-. injection H5 as <-. injection H6 as <-.
  simpl.
  simpl in Hother.
  split; [reflexivity|].
  split.
  { intros k v Hv.
    destruct (decide (k = "param_array")) as [->|Hk]; [set_solver|].
    rewrite (Hother k Hk) in Hv.
    apply lookup_union_Some_raw in Hv as [Hv|[_ Hv]].
    - repeat (apply lookup_insert_Some in Hv as [[<- _]|[_ Hv]]; [set_solver|]).
      now rewrite lookup_empty in Hv.
    - apply lookup_union_Some_raw in Hv as [Hv|[_ Hv]];
        [|now rewrite lookup_empty in Hv].
      repeat (apply lookup_insert_Some in Hv as [[<- _]|[_ Hv]]; [set_solver|]).
      now rewrite lookup_empty in Hv. }
  split; [rewrite Hother by discriminate; reflexivity|].
  split; [rewrite Hother by discriminate; reflexivity|].
  split; [rewrite Hother by discriminate; reflexivity|].
  split; [rewrite Hother by discriminate; reflexivity|].
  split.
  { intros a ->. exact Hsame. }
  repeat split.
Qed.

(** X8. The constructor of the union potential stores what it is given:
    [code_constituent] returns the constituent body passed to the
    constructor, [code] and [r_cut] are the isotropic body and cutoff, the
    two cutoffs and a given parameter array read back as passed, the five
    per-type parameters are registered, and the object is not attached. *)
Theorem union_init_round_trip (r_cut_constituent r_cut_isotropic : pyfloat)
    (code_constituent code_isotropic : option string)
    (pa : option (list float32))
    (h : list (list float32)) (c : list event) (ip : option cpp_obj) (w : world) :
  _CPPUnionPotential.__init__ r_cut_constituent r_cut_isotropic
    code_constituent code_isotropic pa (World new_object h c ip) = (inr tt, w) ->
  _CPPUnionPotential.code_constituent w = (inr (py_code code_constituent), w)
  /\ fst (getattr "code" w) = inr (py_code code_isotropic)
  /\ fst (getattr "r_cut" w) = inr (PyFloat r_cut_isotropic)
  /\ fst (getattr "r_cut_isotropic" w) = inr (PyFloat r_cut_isotropic)
  /\ fst (getattr "r_cut_constituent" w) = inr (PyFloat r_cut_constituent)
  /\ (forall a, pa = Some a -> fst (getattr "param_array" w) = inr (PyArray a))
  /\ dom (_typeparam_dict (self w))
     = {[ "positions"; "orientations"; "diameters"; "charges"; "typeids" ]}
  /\ _attached (self w) = false.
Proof.
  intros H. apply union_init_state in H
    as (Hi & _ & Hrc & Hri & Hr & Hcode & Hpa & Htp & Ho & _ & _).
  assert (Hnone : forall k, k <> "_code_isotropic" -> k <> "_code_constituent" ->
                            inst_dict (self w) !! k = None).
  { intros k N1 N2. rewrite Hi. now rewrite !lookup_insert_ne by congruence. }
  split.
  { unfold _CPPUnionPotential.code_constituent, bind, get_self. rewrite Hi.
    rewrite lookup_insert_ne by discriminate. now rewrite lookup_insert_eq. }
  split; [apply getattr_param; [apply Hnone; discriminate | exact Hcode]|].
  split; [apply getattr_param; [apply Hnone; discriminate | exact Hr]|].
  split; [apply getattr_param; [apply Hnone; discriminate | exact Hri]|].
  split; [apply getattr_param; [apply Hnone; discriminate | exact Hrc]|].
  split.
  { intros a Ha. apply getattr_param; [apply Hnone; discriminate | now apply Hpa]. }
  split.
  { rewrite Htp. simpl. rewrite dom_union_L, !dom_insert_L. set_solver. }
  unfold _attached. now rewrite Ho.
Qed.

(** X9. A union potential straight from its constructor cannot be
    attached: the constructor sets neither [alpha_iso] nor [alpha_union],
    which [_attach] reads, so [_attach] never returns, whatever the
    constructor was given, the compiler and the simulation. *)
Theorem union_attach_after_init_never_returns
    (r_cut_constituent r_cut_isotropic : pyfloat)
    (code_constituent code_isotropic : option string)
    (pa : option (list float32))
    (h : list (list float32)) (c : list event) (ip : option cpp_obj) (w : world) :
  _CPPUnionPotential.__init__ r_cut_constituent r_cut_isotropic
    code_constituent code_isotropic pa (World new_object h c ip) = (inr tt, w) ->
  forall (B : backend) (sim : simulation),
  exists (e : exn) (w' : world), _CPPUnionPotential._attach B sim w = (inl e, w').
Proof.
  intros H B sim. apply union_init_state in H as (Hi & Hkeys & _).
  destruct (_CPPUnionPotential._attach B sim w) as [[e|[]] w'] eqn:E; [eauto|].
  exfalso. apply union_attach_inv in E as (req & h1 & h2 & d1 & d2 & _ & Hg & _).
  rewrite getattr_run in Hg. simpl in Hg. rewrite Hi in Hg.
  rewrite !lookup_insert_ne in Hg by discriminate. rewrite lookup_empty in Hg.
  destruct (pd_values (_param_dict (self w)) !! "alpha_iso") as [v|] eqn:Ev;
    [|discriminate].
  apply Hkeys in Ev.
  repeat (apply elem_of_cons in Ev as [Ev|Ev]; [discriminate Ev|]).
  now apply elem_of_nil in Ev.
Qed.

(** ** The body that is compiled *)

(** The wrapper calls and the requests of the union [_attach], whatever
    its outcome. *)
Lemma union_attach_trace (B : backend) (sim : simulation) (w : world)
    (cc ci : string) :
  isinstance_hpmc (sim_integrator sim) = true ->
  integrator_attached (sim_integrator sim) = true ->
  inst_dict (self w) !! "_code_constituent" = Some (PyStr cc) ->
  inst_dict (self w) !! "_code_isotropic" = Some (PyStr ci) ->
  exists evs,
    calls (snd (_CPPUnionPotential._attach B sim w)) = calls w ++ evs /\
    wraps evs =
      EvWrap CPU (PyStr cc) :: EvWrap CPU (PyStr ci) ::
      match sim_device sim with
      | GPU => [EvWrap GPU (PyStr ci)]
      | CPU => []
      end /\
    Forall (union_request_for B (self w) (sim_device sim) cc ci) (compiles evs).
Proof.
  intros Hk Ha Hcc Hci. unfold _CPPUnionPotential._attach.
  rewrite Hk, Ha. simpl.
  rewrite (bind_step _ _ _ _ _ (getattr_inst _ _ _ Hcc)).
  rewrite (bind_step _ _ _ _ _ (call_wrap_str CPU cc w)).
  erewrite bind_step by (apply getattr_inst; exact Hci).
  erewrite bind_step by apply call_wrap_str.
  simpl.
  destruct (sim_device sim).
  - eapply quiet_after; [| simpl; rewrite <- app_assoc; reflexivity | reflexivity].
    apply quiet_bind.
    + do 3 (apply quiet_bind; [apply silent_quiet, silent_getattr | intros ?]).
      apply quiet_jit_new. simpl. eauto.
    + intros o. apply quiet_mirror.
  - cbv zeta.
    rewrite bind_assoc.
    erewrite bind_step by (apply getattr_inst; exact Hci).
    rewrite bind_assoc.
    erewrite bind_step by apply call_wrap_str.
    eapply quiet_after;
      [| simpl; rewrite <- !app_assoc; reflexivity | reflexivity].
    apply quiet_bind.
    + do 4 (apply quiet_bind; [apply silent_quiet, silent_getattr | intros ?]).
      apply quiet_jit_new. simpl. eauto 6.
    + intros o. apply quiet_mirror.
Qed.

(** X10. On an unattached union potential, the body given to the setter
    of [code_constituent] is the body the next [_attach] wraps and hands
    to the compiler, whatever body the object held before; the isotropic
    body is not affected. *)
Theorem recoded_body_is_compiled (B : backend) (sim : simulation) (w : world)
    (c ci : string) :
  _attached (self w) = false ->
  isinstance_hpmc (sim_integrator sim) = true ->
  integrator_attached (sim_integrator sim) = true ->
  inst_dict (self w) !! "_code_isotropic" = Some (PyStr ci) ->
  exists w1 evs,
    _CPPUnionPotential.set_code_constituent (PyStr c) w = (inr tt, w1) /\
    calls (snd (_CPPUnionPotential._attach B sim w1)) = calls w ++ evs /\
    wraps evs =
      EvWrap CPU (PyStr c) :: EvWrap CPU (PyStr ci) ::
      match sim_device sim with
      | GPU => [EvWrap GPU (PyStr ci)]
      | CPU => []
      end /\
    Forall (union_request_for B (self w1) (sim_device sim) c ci) (compiles evs).
Proof.
  intros Hu Hk Ha Hci.
  set (w1 := World (set_inst_dict (<["_code_constituent" := PyStr c]>
                                     (inst_dict (self w))) (self w))
                   (heap w) (calls w) (integrator_patch w)).
  assert (Hset : _CPPUnionPotential.set_code_constituent (PyStr c) w = (inr tt, w1)).
  { unfold _CPPUnionPotential.set_code_constituent, bind, get_self.
    now rewrite Hu. }
  destruct (union_attach_trace B sim w1 c ci Hk Ha) as (evs & E1 & E2 & E3).
  - simpl. apply lookup_insert_eq.
  - simpl. now rewrite lookup_insert_ne by discriminate.
  - exists w1, evs. auto.
Qed.

(** ** A union [_attach] that stops half way *)

Lemma getattr_inl (name : string) (w w' : world) (e : exn) :
  getattr name w = (inl e, w') -> e = AttributeError name /\ w' = w.
Proof.
  rewrite getattr_run.
  destruct (inst_dict (self w) !! name); [discriminate|].
  destruct (pd_values (_param_dict (self w)) !! name); [discriminate|].
  now intros [= <- <-].
Qed.

Lemma call_wrap_inl (t : device_kind) (c : pyval) (w w' : world) (e : exn) :
  call_wrap t c w = (inl e, w') -> exists msg, e = TypeError msg.
Proof. destruct c; intros H; cbv in H; try discriminate H; injection H as <- _; eauto. Qed.

Lemma jit_new_inl (B : backend) (req : jit_request) (w w' : world) (e : exn) :
  jit_new B req w = (inl e, w') -> exists d, e = CompilationFailed d.
Proof.
  unfold jit_new, bind, emit, alloc, ret, raise. simpl.
  destruct (jit_compile B req); [intros [= <- _]; eauto|].
  destruct (is_union_request req); discriminate.
Qed.

Lemma as_array_inl (v : pyval) (w w' : world) (e : exn) :
  as_array v w = (inl e, w') -> exists msg, e = TypeError msg.
Proof. destruct v; intros H; cbv in H; try discriminate H; injection H as <- _; eauto. Qed.

Lemma slice_assign_inl (dst src : loc) (w w' : world) (e : exn) :
  slice_assign dst src w = (inl e, w') -> exists msg, e = ValueError msg.
Proof.
  unfold slice_assign, bind, load, store, raise.
  destruct (heap w !! src); [|intros [= <- _]; eauto]. simpl.
  destruct (heap w !! dst); [|intros [= <- _]; eauto].
  destruct (broadcast _ _); [discriminate|]. intros [= <- _]; eauto.
Qed.

(** Building the evaluator never fails for want of [alpha_iso]. *)
Lemma union_build_inl (B : backend) (sim : simulation)
    (cpu_code_constituent cpu_code_isotropic : string) (w w' : world) :
  match sim_device sim with
  | GPU =>
      let gpu_settings := get_gpu_compilation_settings B in
      code <- getattr "_code_isotropic" ;;
      gpu_code_isotropic <- call_wrap GPU code ;;
      r_cut_isotropic <- getattr "r_cut_isotropic" ;;
      param_array <- getattr "param_array" ;;
      r_cut_constituent <- getattr "r_cut_constituent" ;;
      array_size_union <- getattr "array_size_union" ;;
      jit_new B (PatchEnergyJITUnionGPU
                   cpu_code_isotropic r_cut_isotropic param_array
                   cpu_code_constituent r_cut_constituent
                   array_size_union
                   gpu_code_isotropic kernel_name
                   (gpu_includes gpu_settings ++ ["-DUNION_EVAL"])
                   (cuda_devrt_lib_path gpu_settings)
                   (max_arch gpu_settings))
  | CPU =>
      r_cut_isotropic <- getattr "r_cut_isotropic" ;;
      param_array <- getattr "param_array" ;;
      r_cut_constituent <- getattr "r_cut_constituent" ;;
      jit_new B (PatchEnergyJITUnion
                   cpu_code_isotropic (get_cpu_include_options B)
                   r_cut_isotropic param_array
                   cpu_code_constituent r_cut_constituent)
  end w <> (inl (AttributeError "alpha_iso"), w').
Proof.
  intros H.
  destruct (sim_device sim); cbv zeta in H;
    repeat (apply bind_inl in H as [H|(? & ? & _ & H)];
            [ first [ apply getattr_inl in H as [H _]; discriminate H
                    | apply call_wrap_inl in H as [? H]; discriminate H ] | ]);
    apply jit_new_inl in H as [? H]; discriminate H.
Qed.

(** X11. When the union [_attach] stops with [AttributeError] for
    [alpha_iso], which is what happens when the host never set that
    attribute, the compilation has already taken place: the object is left
    holding the new evaluator and the store its two buffers, holding
    whatever the evaluator put there and none of the host's values, while
    the parameters are as before. *)
Theorem union_attach_stops_after_compile (B : backend) (sim : simulation)
    (w w' : world) :
  _CPPUnionPotential._attach B sim w = (inl (AttributeError "alpha_iso"), w') ->
  exists req : jit_request,
    _cpp_obj (self w') =
      Some (PatchEnergyUnion req (length (heap w)) (S (length (heap w)))) /\
    heap w' = heap w ++ [fst (engine_buffers B req); snd (engine_buffers B req)] /\
    inst_dict (self w') = inst_dict (self w) /\
    _param_dict (self w') = _param_dict (self w).
Proof.
  intros H. unfold _CPPUnionPotential._attach in H.
  destruct (isinstance_hpmc (sim_integrator sim)); [|discriminate].
  destruct (integrator_attached (sim_integrator sim)); [|discriminate].
  simpl in H.
  apply bind_inl in H as [H|(c1 & w1 & H1 & H)];
    [apply getattr_inl in H as [H _]; discriminate H|].
  apply getattr_inv in H1 as [-> _].
  apply bind_inl in H as [H|(s1 & w1 & H1 & H)];
    [apply call_wrap_inl in H as [? H]; discriminate H|].
  apply call_wrap_inv in H1 as ->.
  apply bind_inl in H as [H|(c2 & w2 & H2 & H)];
    [apply getattr_inl in H as [H _]; discriminate H|].
  apply getattr_inv in H2 as [-> _].
  apply bind_inl in H as [H|(s2 & w2 & H2 & H)];
    [apply call_wrap_inl in H as [? H]; discriminate H|].
  apply call_wrap_inv in H2 as ->.
  apply bind_inl in H as [H|(o & w3 & Ho & H)];
    [now apply union_build_inl in H|].
  apply union_build_inv in Ho as (req & -> & Hs3 & Hh3). simpl in Hs3, Hh3.
  apply bind_inl in H as [H|(p & w4 & Hp & H)]; [discriminate H|].
  injection Hp as <- <-.
  apply bind_inl in H as [H|([] & w5 & H5 & H)]; [discriminate H|].
  injection H5 as <-.
  apply bind_inl in H as [H|(host1 & w6 & H6 & H)].
  { apply getattr_inl in H as [_ ->]. exists req. simpl.
    rewrite Hs3, Hh3. repeat split. }
  apply getattr_inv in H6 as [-> _].
  apply bind_inl in H as [H|(h1 & w6 & H6 & H)];
    [apply as_array_inl in H as [? H]; discriminate H|].
  apply as_array_inv in H6 as [-> ->].
  apply bind_inl in H as [H|(dst1 & w6 & H6 & H)]; [discriminate H|].
  unfold cpp_alpha_iso, bind, get_self in H6. simpl in H6. injection H6 as <- <-.
  apply bind_inl in H as [H|([] & w7 & H7 & H)];
    [apply slice_assign_inl in H as [? H]; discriminate H|].
  apply slice_assign_inv in H7 as (v1 & d1 & d1' & _ & _ & _ & Hs7 & Hh7).
  simpl in Hs7, Hh7.
  apply bind_inl in H as [H|(host2 & w8 & H8 & H)];
    [apply getattr_inl in H as [H _]; discriminate H|].
  apply getattr_inv in H8 as [-> _].
  apply bind_inl in H as [H|(h2 & w8 & H8 & H)];
    [apply as_array_inl in H as [? H]; discriminate H|].
  apply as_array_inv in H8 as [-> ->].
  apply bind_inl in H as [H|(dst2 & w8 & H8 & H)].
  { unfold cpp_alpha_union, bind, get_self in H. rewrite Hs7 in H. discriminate H. }
  unfold cpp_alpha_union, bind, get_self in H8. rewrite Hs7 in H8. simpl in H8.
  injection H8 as <- <-.
  apply bind_inl in H as [H|([] & w9 & H9 & H)];
    [apply slice_assign_inl in H as [? H]; discriminate H|].
  apply slice_assign_inv in H9 as (v2 & d2 & d2' & _ & _ & _ & Hs9 & Hh9).
  apply bind_inl in H as [H|(b1 & w10 & H10 & H)].
  { unfold cpp_alpha_iso, bind, get_self in H. rewrite Hs9, Hs7 in H. discriminate H. }
  apply bind_inl in H as [H|([] & w11 & H11 & H)]; [discriminate H|].
  apply bind_inl in H as [H|(b2 & w12 & H12 & H)].
  { unfold setattr_inst, bind, get_self, put_self in H11. injection H11 as <-.
    unfold cpp_alpha_iso, bind, get_self in H10. rewrite Hs9, Hs7 in H10.
    simpl in H10. injection H10 as <- <-.
    unfold cpp_alpha_union, bind, get_self in H. simpl in H.
    rewrite Hs9, Hs7 in H. discriminate H. }
  apply bind_inl in H as [H|([] & w13 & H13 & H)]; [discriminate H|].
  exfalso. unfold super_attach, bind, get_self, emit, ret in H.
  destruct (_cpp_obj (self w13)); discriminate H.
Qed.

(** ** The further properties on the scenario *)

Section MoreWitnesses.
Import Scenario Scenario2.

Lemma w_scalar_attach_cpu :
  CPPPotential._attach B0 sim_cpu w_scalar = (inr tt, w_scalar_cpu).
Proof. vm_compute. reflexivity. Qed.

Lemma w_constructed_init :
  _CPPUnionPotential.__init__ 11 50 (Some "return 1.0f;") (Some "return 0.0f;")
    (Some [1; 2]) (World new_object [] [] None) = (inr tt, w_constructed).
Proof. vm_compute. reflexivity. Qed.

(** X3 on the scenario: the compiler rejects the scalar potential's
    source. *)
Lemma rejected_compilation_changes_nothing_witness :
  CPPPotential._attach B_reject sim_cpu w_scalar
    = (inl (CompilationFailed "error: expected expression"), w_scalar_rejected) /\
  untouched w_scalar w_scalar_rejected.
Proof.
  assert (H : CPPPotential._attach B_reject sim_cpu w_scalar
              = (inl (CompilationFailed "error: expected expression"),
                 w_scalar_rejected)) by (vm_compute; reflexivity).
  split; [exact H|].
  exact (proj1 (rejected_compilation_changes_nothing B_reject sim_cpu w_scalar
                  w_scalar_rejected "error: expected expression") H).
Defined.

(** X4 on the scenario. *)
Lemma scalar_attach_success_witness :
  CPPPotential._attach B0 sim_cpu w_scalar = (inr tt, w_scalar_cpu) /\
  exists (code : string) (r_cut param_array : pyval) (evs : list event),
    sim_integrator sim_cpu = HPMCIntegrator true /\
    fst (getattr "code" w_scalar) = inr (PyStr code) /\
    fst (getattr "r_cut" w_scalar) = inr r_cut /\
    fst (getattr "param_array" w_scalar) = inr param_array /\
    jit_compile B0
      (scalar_request B0 (self w_scalar) (sim_device sim_cpu) code r_cut param_array)
      = None /\
    self w_scalar_cpu =
      set_cpp_obj
        (Some (PatchEnergy
                 (scalar_request B0 (self w_scalar) (sim_device sim_cpu) code
                    r_cut param_array)))
        (self w_scalar) /\
    heap w_scalar_cpu = heap w_scalar /\
    calls w_scalar_cpu = calls w_scalar ++ evs /\
    wraps evs = EvWrap CPU (PyStr code) ::
                match sim_device sim_cpu with
                | GPU => [EvWrap GPU (PyStr code)]
                | CPU => []
                end /\
    compiles evs =
      [scalar_request B0 (self w_scalar) (sim_device sim_cpu) code r_cut param_array].
Proof.
  split; [exact w_scalar_attach_cpu|].
  exact (scalar_attach_success B0 sim_cpu w_scalar w_scalar_cpu w_scalar_attach_cpu).
Defined.

(** X5 on the scenario. *)
Lemma union_attach_spares_host_arrays_witness :
  _CPPUnionPotential._attach B0 sim_cpu w_union = (inr tt, w_union_cpu) /\
  length (heap w_union_cpu) = (length (heap w_union) + 2)%nat /\
  heap w_union_cpu !! 0%nat = heap w_union !! 0%nat /\
  heap w_union_cpu !! 1%nat = heap w_union !! 1%nat.
Proof.
  split; [exact w_union_attach_cpu|].
  destruct (union_attach_spares_host_arrays B0 sim_cpu w_union w_union_cpu
              w_union_attach_cpu) as (Hl & Hold & _).
  split; [exact Hl|].
  assert (L : length (heap w_union) = 2%nat) by (vm_compute; reflexivity).
  split; apply Hold; rewrite L; lia.
Defined.

(** X6 on the scenario. *)
Lemma energy_after_attach_witness :
  CPPPotential._attach B0 sim_cpu w_scalar = (inr tt, w_scalar_cpu) /\
  CPPPotentialBase.energy B0 sim_cpu w_scalar_cpu
    = (inr (PyFloat (computePatchEnergy B0 (sim_timestep sim_cpu))), w_scalar_cpu).
Proof.
  split; [exact w_scalar_attach_cpu|].
  exact (energy_after_attach B0 sim_cpu w_scalar w_scalar_cpu
           (or_introl w_scalar_attach_cpu)).
Defined.

(** X7 on the scenario: no parameter array is given. *)
Lemma scalar_init_round_trip_witness :
  CPPPotential.__init__ 11 (Some "return 0.0f;") None (World new_object [] [] None)
    = (inr tt, w_scalar_default) /\
  fst (getattr "r_cut" w_scalar_default) = inr (PyFloat 11) /\
  fst (getattr "code" w_scalar_default) = inr (PyStr "return 0.0f;") /\
  fst (getattr "param_array" w_scalar_default) = inr (PyArray []).
Proof.
  assert (H : CPPPotential.__init__ 11 (Some "return 0.0f;") None
                (World new_object [] [] None) = (inr tt, w_scalar_default))
    by (vm_compute; reflexivity).
  split; [exact H|].
  destruct (scalar_init_round_trip 11 (Some "return 0.0f;") None [] [] None
              w_scalar_default H) as (H1 & H2 & H3 & _).
  split; [exact H1|]. split; [exact H2|]. exact H3.
Defined.

(** X8 on the scenario. *)
Lemma union_init_round_trip_witness :
  _CPPUnionPotential.__init__ 11 50 (Some "return 1.0f;") (Some "return 0.0f;")
    (Some [1; 2]) (World new_object [] [] None) = (inr tt, w_constructed) /\
  _CPPUnionPotential.code_constituent w_constructed
    = (inr (PyStr "return 1.0f;"), w_constructed) /\
  fst (getattr "r_cut" w_constructed) = inr (PyFloat 50) /\
  fst (getattr "param_array" w_constructed) = inr (PyArray [1; 2]).
Proof.
  split; [exact w_constructed_init|].
  destruct (union_init_round_trip 11 50 (Some "return 1.0f;") (Some "return 0.0f;")
              (Some [1; 2]) [] [] None w_constructed w_constructed_init)
    as (H1 & _ & H3 & _ & _ & H6 & _).
  split; [exact H1|]. split; [exact H3|]. exact (H6 [1; 2] eq_refl).
Defined.

(** X9 on the scenario. *)
Lemma union_attach_after_init_never_returns_witness :
  _CPPUnionPotential.__init__ 11 50 (Some "return 1.0f;") (Some "return 0.0f;")
    (Some [1; 2]) (World new_object [] [] None) = (inr tt, w_constructed) /\
  exists (e : exn) (w' : world),
    _CPPUnionPotential._attach B0 sim_gpu w_constructed = (inl e, w').
Proof.
  split; [exact w_constructed_init|].
  exact (union_attach_after_init_never_returns 11 50 (Some "return 1.0f;")
           (Some "return 0.0f;") (Some [1; 2]) [] [] None w_constructed
           w_constructed_init B0 sim_gpu).
Defined.

(** X10 on the scenario. *)
Lemma recoded_body_is_compiled_witness :
  _attached (self w_union) = false /\
  inst_dict (self w_union) !! "_code_isotropic" = Some (PyStr "return 0.0f;") /\
  exists w1 evs,
    _CPPUnionPotential.set_code_constituent (PyStr "return 2.0f;") w_union
      = (inr tt, w1) /\
    calls (snd (_CPPUnionPotential._attach B0 sim_cpu w1)) = calls w_union ++ evs /\
    wraps evs =
      [EvWrap CPU (PyStr "return 2.0f;"); EvWrap CPU (PyStr "return 0.0f;")] /\
    Forall (union_request_for B0 (self w1) CPU "return 2.0f;" "return 0.0f;")
           (compiles evs).
Proof.
  assert (Hu : _attached (self w_union) = false) by (vm_compute; reflexivity).
  assert (Hi : inst_dict (self w_union) !! "_code_isotropic"
               = Some (PyStr "return 0.0f;")) by (vm_compute; reflexivity).
  split; [exact Hu|]. split; [exact Hi|].
  exact (recoded_body_is_compiled B0 sim_cpu w_union "return 2.0f;" "return 0.0f;"
           Hu eq_refl eq_refl Hi).
Defined.

(** X11 on the scenario: the union potential straight from its
    constructor, attached on a CPU. *)
Lemma union_attach_stops_after_compile_witness :
  _CPPUnionPotential._attach B0 sim_cpu w_constructed
    = (inl (AttributeError "alpha_iso"), w_constructed_cpu) /\
  exists req : jit_request,
    _cpp_obj (self w_constructed_cpu) =
      Some (PatchEnergyUnion req (length (heap w_constructed))
              (S (length (heap w_constructed)))) /\
    heap w_constructed_cpu =
      heap w_constructed ++ [fst (engine_buffers B0 req); snd (engine_buffers B0 req)] /\
    inst_dict (self w_constructed_cpu) = inst_dict (self w_constructed) /\
    _param_dict (self w_constructed_cpu) = _param_dict (self w_constructed).
Proof.
  assert (H : _CPPUnionPotential._attach B0 sim_cpu w_constructed
              = (inl (AttributeError "alpha_iso"), w_constructed_cpu))
    by (vm_compute; reflexivity).
  split; [exact H|].
  exact (union_attach_stops_after_compile B0 sim_cpu w_constructed
           w_constructed_cpu H).
Defined.
End MoreWitnesses.
